(** * pyiceberg/catalog/glue.py: the Glue-backed catalog

    A shallow embedding of [GlueCatalog] and of the module-level entity
    translators of [pyiceberg/catalog/glue.py], together with the properties of
    its lifecycle protocol.

    - Python dictionaries with string keys are [gmap string _]; the boto3
      [TypedDict]s are records whose [NotRequired] keys are [option] fields.
    - Exceptions are values ([Exception]); a method is a function from the
      world (metastore state, content store, history of requests) to an
      outcome and a new world.
    - The Glue client is an arbitrary state machine ([GlueClient]), so that
      every answer the service may give (not found, conflict, denied, pages)
      is covered. *)

From Stdlib Require Import Ascii String.
From stdpp Require Import gmap strings list fin_maps.

Local Open Scope string_scope.
Local Open Scope list_scope.
Local Open Scope stdpp_scope.

(** * Strings *)

(** [str.lower()]: the ASCII letters [A]..[Z] are mapped to [a]..[z], every
    other byte is kept. *)
Definition ascii_lower (c : ascii) : ascii :=
  let n := nat_of_ascii c in
  if (65 <=? n)%nat && (n <=? 90)%nat then ascii_of_nat (n + 32) else c.

Fixpoint lower (s : string) : string :=
  match s with
  | EmptyString => EmptyString
  | String c s' => String (ascii_lower c) (lower s')
  end.

(** [str.upper()], the mirror image of [lower]. *)
Definition ascii_upper (c : ascii) : ascii :=
  let n := nat_of_ascii c in
  if (97 <=? n)%nat && (n <=? 122)%nat then ascii_of_nat (n - 32) else c.

Fixpoint upper (s : string) : string :=
  match s with
  | EmptyString => EmptyString
  | String c s' => String (ascii_upper c) (upper s')
  end.

(** [str.split(s, sep)] for a one-character separator: always at least one
    segment, empty segments are kept. *)
Fixpoint str_split (sep : ascii) (s : string) : list string :=
  match s with
  | EmptyString => [EmptyString]
  | String c s' =>
      if Ascii.eqb c sep then EmptyString :: str_split sep s'
      else match str_split sep s' with
           | cur :: rest => String c cur :: rest
           | [] => [String c EmptyString]
           end
  end.

(** Truthiness of the Python values the catalog tests with [if x] / [not x]. *)
Class Truthy (A : Type) := truthy : A → bool.
Arguments truthy {_ _} _ : simpl never.

#[export] Instance truthy_str : Truthy string :=
  λ s, match s with EmptyString => false | _ => true end.
#[export] Instance truthy_list {A} : Truthy (list A) :=
  λ l, match l with [] => false | _ => true end.
#[export] Instance truthy_option {A} `{Truthy A} : Truthy (option A) :=
  λ o, match o with None => false | Some a => truthy a end.
#[export] Instance truthy_dict {A} : Truthy (gmap string A) :=
  λ m, bool_decide (m ≠ ∅).

(** * Names imported from [pyiceberg.catalog] *)

(** [Properties = Dict[str, str]] and [Identifier = Tuple[str, ...]]. *)
Abbreviation Properties := (gmap string string).
Abbreviation Identifier := (list string).

(** An argument of type [Union[str, Identifier]]. *)
Inductive IdentifierArg :=
| IdStr (s : string)
| IdTuple (t : Identifier).

#[export] Instance truthy_identifier : Truthy IdentifierArg :=
  λ i, match i with IdStr s => truthy s | IdTuple t => truthy t end.

(** The string constants that [glue.py] imports from [pyiceberg.catalog]. Their
    values are not part of this module: the catalog is parametric in them. *)
Class CatalogConstants := {
  EXTERNAL_TABLE : string;
  ICEBERG : string;
  LOCATION : string;
  METADATA_LOCATION : string;
  TABLE_TYPE : string;
  WAREHOUSE_LOCATION : string
}.

(** [PropertiesUpdateSummary] *)
Record PropertiesUpdateSummary := {
  removed : list string;
  updated : list string;
  missing : list string
}.

(** * Exceptions *)

(** The exception classes that occur. [ClientError code] stands for the class
    [self.glue.exceptions.<code>] of the boto3 client. *)
Inductive ExcClass :=
| PyException
| ValueError
| KeyError
| AssertionError
| NotImplementedError
| FileNotFoundError
| NamespaceAlreadyExistsError
| NamespaceNotEmptyError
| NoSuchIcebergTableError
| NoSuchNamespaceError
| NoSuchPropertyException
| NoSuchTableError
| TableAlreadyExistsError
| ClientError (code : string).

#[export] Instance ExcClass_eq_dec : EqDecision ExcClass.
Proof. solve_decision. Defined.

Definition EntityNotFoundException := ClientError "EntityNotFoundException".
Definition AlreadyExistsException := ClientError "AlreadyExistsException".
Definition InvalidInputException := ClientError "InvalidInputException".

(** An exception object: its class, its message and its [__cause__] (set by
    [raise ... from e]). *)
#[warnings="-register-all"] Inductive Exception :=
| Exc (cls : ExcClass) (msg : string) (cause : option Exception).

Definition exc_class (e : Exception) : ExcClass := let 'Exc c _ _ := e in c.
Definition exc_msg (e : Exception) : string := let 'Exc _ m _ := e in m.
Definition exc_cause (e : Exception) : option Exception := let 'Exc _ _ c := e in c.

(** [issubclass(c, d)]: every class derives from [Exception];
    [NoSuchIcebergTableError] derives from [NoSuchTableError]. *)
Definition issubclass (c d : ExcClass) : bool :=
  match d with
  | PyException => true
  | NoSuchTableError =>
      bool_decide (c = NoSuchTableError) || bool_decide (c = NoSuchIcebergTableError)
  | _ => bool_decide (c = d)
  end.

Definition isinstance (e : Exception) (d : ExcClass) : bool :=
  issubclass (exc_class e) d.

(** * The boto3 typed dictionaries *)

Section TypedDicts.
(** [StorageDescriptorTypeDef] is never inspected by the catalog. *)
Context {StorageDescriptorTypeDef : Type}.

(** [TableTypeDef], the table entity the service returns. Only [Name] is a
    required key. *)
Record TableTypeDef := {
  Name : string;
  DatabaseName : option string;
  Owner : option string;
  TableType : option string;
  Parameters : option Properties;
  StorageDescriptor : option StorageDescriptorTypeDef;
  Description : option string
}.

(** [TableInputTypeDef], the table entity the catalog submits. *)
Record TableInputTypeDef := {
  in_Name : string;
  in_TableType : option string;
  in_Owner : option string;
  in_Parameters : option Properties;
  in_StorageDescriptor : option StorageDescriptorTypeDef;
  in_Description : option string
}.
End TypedDicts.

Arguments TableTypeDef : clear implicits.
Arguments TableInputTypeDef : clear implicits.

(** [DatabaseTypeDef] and [DatabaseInputTypeDef] have the same keys as far as
    the catalog is concerned: [Name] is required, the others are not. *)
Record DatabaseTypeDef := {
  db_Name : string;
  db_Description : option string;
  db_LocationUri : option string;
  db_Parameters : option Properties
}.

Abbreviation DatabaseInputTypeDef := DatabaseTypeDef.

(** * Outcomes of a call *)

(** A call returns a value or raises; [Diverged] is the outcome of a loop that
    was not given enough iterations (see [list_tables]). *)
Inductive Outcome (A : Type) :=
| Return (a : A)
| Raise (e : Exception)
| Diverged.

Arguments Return {A} a.
Arguments Raise {A} e.
Arguments Diverged {A}.

#[export] Instance Outcome_ret : MRet Outcome := λ A a, Return a.
#[export] Instance Outcome_bind : MBind Outcome := λ A B f m,
  match m with
  | Return a => f a
  | Raise e => Raise e
  | Diverged => Diverged
  end.

(** [d[key]] on a key that may be absent, and [assert b]. *)
Definition subscript {A} (d : option A) (key : string) : Outcome A :=
  match d with
  | Some a => Return a
  | None => Raise (Exc KeyError key None)
  end.

Definition assert_ (b : bool) : Outcome unit :=
  if b then Return tt else Raise (Exc AssertionError "" None).

(** * The entity translators (module-level functions) *)

Section Translators.
Context `{CatalogConstants} {StorageDescriptorTypeDef : Type}.

Definition _construct_parameters (metadata_location : string) : Properties :=
  <[METADATA_LOCATION := metadata_location]> (<[TABLE_TYPE := upper ICEBERG]> ∅).

Definition _construct_create_table_input
    (table_name metadata_location : string) (properties : Properties)
  : TableInputTypeDef StorageDescriptorTypeDef :=
  {| in_Name := table_name;
     in_TableType := Some EXTERNAL_TABLE;
     in_Parameters := Some (_construct_parameters metadata_location);
     in_Owner := None;
     in_StorageDescriptor := None;
     (* if "Description" in properties *)
     in_Description := properties !! "Description" |}.

Definition _construct_rename_table_input
    (to_table_name : string) (glue_table : TableTypeDef StorageDescriptorTypeDef)
  : Outcome (TableInputTypeDef StorageDescriptorTypeDef) :=
  (* assert glue_table["TableType"] *)
  table_type ← subscript (TableType glue_table) "TableType";
  assert_ (truthy table_type);;
  mret {| in_Name := to_table_name;
          in_TableType := Some table_type;
          (* if "Owner" in glue_table *)
          in_Owner := Owner glue_table;
          (* if "Parameters" in glue_table *)
          in_Parameters := Parameters glue_table;
          (* if "StorageDescriptor" in glue_table *)
          in_StorageDescriptor := StorageDescriptor glue_table;
          (* if "Description" in glue_table *)
          in_Description := Description glue_table |}.

(** The body of the [for k, v in properties.items()] loop: the state is the
    pair of [database_input] and [parameters]. *)
Definition database_input_step (k v : string)
    (st : DatabaseInputTypeDef * Properties) : DatabaseInputTypeDef * Properties :=
  let '(database_input, parameters) := st in
  if decide (k = "Description") then
    ({| db_Name := db_Name database_input;
        db_Description := Some v;
        db_LocationUri := db_LocationUri database_input;
        db_Parameters := db_Parameters database_input |}, parameters)
  else if decide (k = LOCATION) then
    ({| db_Name := db_Name database_input;
        db_Description := db_Description database_input;
        db_LocationUri := Some v;
        db_Parameters := db_Parameters database_input |}, parameters)
  else (database_input, <[k := v]> parameters).

Definition _construct_database_input
    (database_name : string) (properties : Properties) : DatabaseInputTypeDef :=
  let database_input :=
    {| db_Name := database_name; db_Description := None;
       db_LocationUri := None; db_Parameters := None |} in
  let '(database_input, parameters) :=
    map_fold database_input_step (database_input, ∅) properties in
  {| db_Name := db_Name database_input;
     db_Description := db_Description database_input;
     db_LocationUri := db_LocationUri database_input;
     db_Parameters := Some parameters |}.

(** The translation back, as [load_namespace_properties] does it on the
    [Database] entry of the response. *)
Definition properties_of_database (database : DatabaseTypeDef) : Properties :=
  let properties := default ∅ (db_Parameters database) in
  let properties :=
    match db_LocationUri database with
    | Some uri => <["location" := uri]> properties
    | None => properties
    end in
  let properties :=
    match db_Description database with
    | Some d => <["Description" := d]> properties
    | None => properties
    end in
  properties.
End Translators.

(** * External collaborators *)

(** What the catalog takes from the rest of the library without looking inside:
    the schema, partition-spec and sort-order representations and the table
    metadata object with its constructor. *)
Class Collaborators := {
  StorageDescriptorTypeDef : Type;
  Schema : Type;
  PartitionSpec : Type;
  SortOrder : Type;
  TableMetadata : Type;
  new_table_metadata :
    string → Schema → PartitionSpec → SortOrder → Properties → TableMetadata;
  metadata_properties : TableMetadata → Properties
}.

(** ** The Glue client ([self.glue]) *)

Module glue.
(** The error a request fails with: botocore's [Error.Code] and
    [Error.Message]. *)
Record Failure := { code : string; message : string }.

Section Client.
Context `{Collaborators}.

Record GetTableResponse := { r_Table : TableTypeDef StorageDescriptorTypeDef }.
Record GetTablesResponse := {
  r_TableList : list (TableTypeDef StorageDescriptorTypeDef);
  r_NextToken : option string
}.
Record GetDatabaseResponse := { r_Database : DatabaseTypeDef }.
Record GetDatabasesResponse := {
  r_DatabaseList : list DatabaseTypeDef;
  r_DatabasesNextToken : option string
}.

(** The requests the catalog sends, with their keyword arguments. *)
Inductive Request :=
| GetTable (DatabaseName Name : string)
| CreateTable (DatabaseName : string)
    (TableInput : TableInputTypeDef StorageDescriptorTypeDef)
| DeleteTable (DatabaseName Name : string)
| GetTables (DatabaseName : string) (NextToken : option string)
| CreateDatabase (DatabaseInput : DatabaseInputTypeDef)
| GetDatabase (Name : string)
| UpdateDatabase (Name : string) (DatabaseInput : DatabaseInputTypeDef)
| DeleteDatabase (Name : string)
| GetDatabases (NextToken : option string).

(** A client over a service whose state is [Σ]: every request answers or
    fails, and moves the service to a new state. *)
Record Client (Σ : Type) := {
  get_table : string → string → Σ → (Failure + GetTableResponse) * Σ;
  create_table :
    string → TableInputTypeDef StorageDescriptorTypeDef → Σ → (Failure + unit) * Σ;
  delete_table : string → string → Σ → (Failure + unit) * Σ;
  get_tables : string → option string → Σ → (Failure + GetTablesResponse) * Σ;
  create_database : DatabaseInputTypeDef → Σ → (Failure + unit) * Σ;
  get_database : string → Σ → (Failure + GetDatabaseResponse) * Σ;
  update_database : string → DatabaseInputTypeDef → Σ → (Failure + unit) * Σ;
  delete_database : string → Σ → (Failure + unit) * Σ;
  get_databases : option string → Σ → (Failure + GetDatabasesResponse) * Σ
}.
End Client.

Arguments get_table {_ _} _ _ _ _.
Arguments create_table {_ _} _ _ _ _.
Arguments delete_table {_ _} _ _ _ _.
Arguments get_tables {_ _} _ _ _ _.
Arguments create_database {_ _} _ _ _.
Arguments get_database {_ _} _ _ _.
Arguments update_database {_ _} _ _ _ _.
Arguments delete_database {_ _} _ _ _.
Arguments get_databases {_ _} _ _ _.
End glue.

(** * The world a call runs in *)

Section World.
Context `{Collaborators} {Σ : Type}.

(** What happened: a request to the metastore with its failure, if any, or a
    metadata file written to the content store. *)
Inductive Event :=
| Requested (rq : glue.Request) (failure : option glue.Failure)
| Written (location : string).

Record World := {
  backend : Σ;
  files : gmap string TableMetadata;
  entropy : list string;
  history : list Event
}.

(** A method call: from the world to an outcome and the world after. *)
Definition M (A : Type) : Type := World → Outcome A * World.

#[export] Instance M_ret : MRet M := λ A a w, (Return a, w).
#[export] Instance M_bind : MBind M := λ A B f m w,
  match m w with
  | (Return a, w') => f a w'
  | (Raise e, w') => (Raise e, w')
  | (Diverged, w') => (Diverged, w')
  end.

Definition lift {A} (o : Outcome A) : M A := λ w, (o, w).
Definition raise {A} (e : Exception) : M A := λ w, (Raise e, w).

(** [try: body / except cls as e: handler e / ...]: the first clause whose
    class the exception is an instance of handles it. *)
Fixpoint find_handler {A} (handlers : list (ExcClass * (Exception → M A)))
    (e : Exception) : option (M A) :=
  match handlers with
  | [] => None
  | (cls, handler) :: rest =>
      if isinstance e cls then Some (handler e) else find_handler rest e
  end.

Definition try_ {A} (body : M A)
    (handlers : list (ExcClass * (Exception → M A))) : M A := λ w,
  match body w with
  | (Raise e, w') =>
      match find_handler handlers e with
      | Some handler => handler w'
      | None => (Raise e, w')
      end
  | r => r
  end.

(** A request through the client: the service answers, the request is
    recorded, a failure is raised as the client's exception of that code. *)
Definition record (w : World) (σ : Σ) (ev : Event) : World :=
  {| backend := σ; files := files w; entropy := entropy w;
     history := history w ++ [ev] |}.

Definition client_error (f : glue.Failure) : Exception :=
  Exc (ClientError (glue.code f)) (glue.message f) None.

Definition request {A} (rq : glue.Request)
    (op : Σ → (glue.Failure + A) * Σ) : M A := λ w,
  match op (backend w) with
  | (inl f, σ) => (Raise (client_error f), record w σ (Requested rq (Some f)))
  | (inr a, σ) => (Return a, record w σ (Requested rq None))
  end.

(** [uuid.uuid4()]: the next value of the world's entropy. *)
Definition uuid4 : M string := λ w,
  (Return (default "" (head (entropy w))),
   {| backend := backend w; files := files w; entropy := tail (entropy w);
      history := history w |}).
End World.

Arguments World {_} Σ.
Arguments M {_} Σ A.
Arguments Event {_}.

(** * The catalog *)

Section Catalog.
Context `{CatalogConstants} `{Collaborators} {Σ : Type}.

Abbreviation TableDef := (TableTypeDef StorageDescriptorTypeDef).
Abbreviation TableInput := (TableInputTypeDef StorageDescriptorTypeDef).

(** [self]: the catalog's name, its configuration and its client. *)
Record GlueCatalog := {
  name : string;
  properties : Properties;
  client : glue.Client Σ
}.

(** A [FileIO] handle and an [InputFile] opened through it. *)
Record FileIO := { io_properties : Properties }.
Record InputFile := { file_location : string }.

(** The domain object [Table]. *)
Record Table := {
  identifier : Identifier;
  metadata : TableMetadata;
  metadata_location : string;
  io : FileIO;
  catalog : GlueCatalog
}.

(** ** The base class [Catalog] and the file layer

    Their code is not in [glue.py]; what follows states what the design
    document says of them. *)

(** Modelled from the spec: [Catalog.identifier_to_tuple], the Identifier
    Resolver's split "on the structural separator" (section 4.1); a tuple is
    taken as it is. *)
Definition identifier_to_tuple (identifier : IdentifierArg) : Identifier :=
  match identifier with
  | IdTuple t => t
  | IdStr s => str_split "." s
  end.

(** Modelled from the spec: [Catalog.identifier_to_tuple_without_catalog].
    The resolver of section 4.1 knows no catalog prefix: a leading segment
    that is the catalog's own name is dropped when at least two more
    segments follow. *)
Definition identifier_to_tuple_without_catalog
    (self : GlueCatalog) (identifier : IdentifierArg) : Identifier :=
  let identifier_tuple := identifier_to_tuple identifier in
  match identifier_tuple with
  | first :: rest =>
      if (3 <=? length identifier_tuple)%nat && bool_decide (first = name self)
      then rest else identifier_tuple
  | [] => identifier_tuple
  end.

(** Modelled from the spec: how an identifier is shown in a message ("all
    domain errors carry the offending identifier(s) in their message",
    section 7). *)
Definition str_of_identifier (identifier : IdentifierArg) : string :=
  match identifier with
  | IdStr s => s
  | IdTuple t => String.concat "." t
  end.

(** Modelled from the spec: [Catalog.identifier_to_database], the resolver
    [resolveNamespace] of section 4.1: "accepts a single segment only";
    anything else fails with the error class the caller asks for. *)
Definition identifier_to_database
    (identifier : IdentifierArg) (err : ExcClass) : Outcome string :=
  match identifier_to_tuple identifier with
  | [database_name] => Return database_name
  | _ => Raise (Exc err ("Invalid database, hierarchical namespaces are not supported: "
                         +:+ str_of_identifier identifier) None)
  end.

(** Modelled from the spec: [Catalog.identifier_to_database_and_table], the
    resolver [resolve] of section 4.1: it "fails if fewer than two non-empty
    segments remain for a table reference", and "an identifier with more
    than one namespace segment is rejected" (section 3). *)
Definition identifier_to_database_and_table
    (identifier : IdentifierArg) (err : ExcClass) : Outcome (string * string) :=
  match identifier_to_tuple identifier with
  | [database_name; table_name] =>
      if truthy database_name && truthy table_name
      then Return (database_name, table_name)
      else Raise (Exc err ("Invalid path, hierarchical namespaces are not supported: "
                           +:+ str_of_identifier identifier) None)
  | _ => Raise (Exc err ("Invalid path, hierarchical namespaces are not supported: "
                         +:+ str_of_identifier identifier) None)
  end.

(** Modelled from the spec: [Catalog._get_updated_props_and_update_summary],
    the reconciliation pass of section 4.4: it "fails [AmbiguousUpdate] if a
    key appears in both [removals] and [updates]; otherwise removes keys in
    [removals], overlays keys in [updates], and returns a summary
    partitioning affected keys into updated / removed /
    untouched-but-requested-missing". [AmbiguousUpdate] is the [ValueError]
    of the docstring of [update_namespace_properties]. *)
Definition _get_updated_props_and_update_summary
    (current_properties : Properties) (removals : option (gset string))
    (updates : Properties)
  : Outcome (PropertiesUpdateSummary * Properties) :=
  let removals := default ∅ removals in
  let overlap := removals ∩ dom updates in
  if bool_decide (overlap ≠ ∅) then
    Raise (Exc ValueError ("Updates and deletes have an overlap: "
                           +:+ String.concat ", " (elements overlap)) None)
  else
    let removed := filter (λ key, key ∈ dom current_properties) removals in
    let updated_properties :=
      updates ∪ filter (λ kv, kv.1 ∉ removals) current_properties in
    Return ({| removed := elements removed;
               updated := elements (dom updates);
               missing := elements (removals ∖ removed) |},
            updated_properties).

(** Modelled from the spec: [load_file_io], the "file-access layer" of
    section 2: a handle on the content store [files], configured by
    [properties]. *)
Definition load_file_io (properties : Properties) (location : string) : FileIO :=
  {| io_properties := properties |}.

(** Modelled from the spec: [FileIO.new_input], the collaborator
    [open(location)] of section 6. *)
Definition new_input (io : FileIO) (location : string) : InputFile :=
  {| file_location := location |}.

(** Modelled from the spec: [FromInputFile.table_metadata], the collaborator
    [parseMetadata(readable)] of section 6: the metadata object stored at
    the location, if there is one. *)
Definition FromInputFile_table_metadata (file : InputFile) : M Σ TableMetadata := λ w,
  match files w !! file_location file with
  | Some metadata => (Return metadata, w)
  | None => (Raise (Exc FileNotFoundError (file_location file) None), w)
  end.

(** Modelled from the spec: [Catalog._load_file_io]: the handle bound to the
    table that is returned; the table's properties override the
    catalog's. *)
Definition _load_file_io (self : GlueCatalog) (props : Properties)
    (location : string) : FileIO :=
  load_file_io (props ∪ properties self) location.

(** Modelled from the spec: [Catalog._write_metadata], the collaborator
    [writeMetadata(metadataObject, location)] of section 6. *)
Definition _write_metadata (metadata : TableMetadata) (io : FileIO)
    (metadata_location : string) : M Σ unit := λ w,
  (Return tt,
   {| backend := backend w;
      files := <[metadata_location := metadata]> (files w);
      entropy := entropy w;
      history := history w ++ [Written metadata_location] |}).

(** Modelled from the spec: [Catalog._get_metadata_location]: "computes a
    metadata file path under that location" (section 4.3); the file name
    carries a fresh uuid. *)
Definition _get_metadata_location (location : string) : M Σ string :=
  uuid ← uuid4;
  mret (location +:+ "/metadata/00000-" +:+ uuid +:+ ".metadata.json").

(** ** The requests of [self.glue], recorded in the history *)

Definition glue_get_table (self : GlueCatalog) (DatabaseName Name : string) :=
  request (glue.GetTable DatabaseName Name)
          (glue.get_table (client self) DatabaseName Name).
Definition glue_create_table (self : GlueCatalog) (DatabaseName : string)
    (TableInput : TableInput) :=
  request (glue.CreateTable DatabaseName TableInput)
          (glue.create_table (client self) DatabaseName TableInput).
Definition glue_delete_table (self : GlueCatalog) (DatabaseName Name : string) :=
  request (glue.DeleteTable DatabaseName Name)
          (glue.delete_table (client self) DatabaseName Name).
Definition glue_get_tables (self : GlueCatalog) (DatabaseName : string)
    (NextToken : option string) :=
  request (glue.GetTables DatabaseName NextToken)
          (glue.get_tables (client self) DatabaseName NextToken).
Definition glue_create_database (self : GlueCatalog)
    (DatabaseInput : DatabaseInputTypeDef) :=
  request (glue.CreateDatabase DatabaseInput)
          (glue.create_database (client self) DatabaseInput).
Definition glue_get_database (self : GlueCatalog) (Name : string) :=
  request (glue.GetDatabase Name) (glue.get_database (client self) Name).
Definition glue_update_database (self : GlueCatalog) (Name : string)
    (DatabaseInput : DatabaseInputTypeDef) :=
  request (glue.UpdateDatabase Name DatabaseInput)
          (glue.update_database (client self) Name DatabaseInput).
Definition glue_delete_database (self : GlueCatalog) (Name : string) :=
  request (glue.DeleteDatabase Name) (glue.delete_database (client self) Name).
Definition glue_get_databases (self : GlueCatalog) (NextToken : option string) :=
  request (glue.GetDatabases NextToken) (glue.get_databases (client self) NextToken).

(** ** [class GlueCatalog(Catalog)] *)

Definition _convert_glue_to_iceberg (self : GlueCatalog) (glue_table : TableDef)
  : M Σ Table :=
  props ← lift (subscript (Parameters glue_table) "Parameters");
  (* assert glue_table["DatabaseName"] *)
  database_name ← lift (subscript (DatabaseName glue_table) "DatabaseName");
  lift (assert_ (truthy database_name));;
  (* assert glue_table["Parameters"] *)
  lift (assert_ (truthy props));;
  let table_name := Name glue_table in
  match props !! TABLE_TYPE with
  | None =>
      raise (Exc NoSuchPropertyException
               ("Property " +:+ TABLE_TYPE +:+ " missing, could not determine type: "
                +:+ database_name +:+ "." +:+ table_name) None)
  | Some glue_table_type =>
      if bool_decide (lower glue_table_type ≠ ICEBERG) then
        raise (Exc NoSuchIcebergTableError
                 ("Property table_type is " +:+ glue_table_type +:+ ", expected "
                  +:+ ICEBERG +:+ ": " +:+ database_name +:+ "." +:+ table_name) None)
      else
        match props !! METADATA_LOCATION with
        | None =>
            raise (Exc NoSuchPropertyException
                     ("Table property " +:+ METADATA_LOCATION
                      +:+ " is missing, cannot find metadata for: "
                      +:+ database_name +:+ "." +:+ table_name) None)
        | Some metadata_location =>
            let io := load_file_io (properties self) metadata_location in
            let file := new_input io metadata_location in
            metadata ← FromInputFile_table_metadata file;
            mret {| identifier := [name self; database_name; table_name];
                    metadata := metadata;
                    metadata_location := metadata_location;
                    io := _load_file_io self (metadata_properties metadata)
                                        metadata_location;
                    catalog := self |}
        end
  end.

Definition _create_glue_table (self : GlueCatalog)
    (database_name table_name : string) (table_input : TableInput) : M Σ unit :=
  try_ (glue_create_table self database_name table_input)
    [ (AlreadyExistsException, λ e,
        raise (Exc TableAlreadyExistsError
                 ("Table " +:+ database_name +:+ "." +:+ table_name
                  +:+ " already exists") (Some e)));
      (EntityNotFoundException, λ e,
        raise (Exc NoSuchNamespaceError
                 ("Database " +:+ database_name +:+ " does not exist") (Some e))) ].

Definition load_table (self : GlueCatalog) (identifier : IdentifierArg) : M Σ Table :=
  let identifier_tuple := identifier_to_tuple_without_catalog self identifier in
  '(database_name, table_name) ←
    lift (identifier_to_database_and_table (IdTuple identifier_tuple) NoSuchTableError);
  load_table_response ←
    try_ (glue_get_table self database_name table_name)
      [ (EntityNotFoundException, λ e,
          raise (Exc NoSuchTableError
                   ("Table does not exist: " +:+ database_name +:+ "." +:+ table_name)
                   (Some e))) ];
  _convert_glue_to_iceberg self (glue.r_Table load_table_response).

Definition drop_table (self : GlueCatalog) (identifier : IdentifierArg) : M Σ unit :=
  let identifier_tuple := identifier_to_tuple_without_catalog self identifier in
  '(database_name, table_name) ←
    lift (identifier_to_database_and_table (IdTuple identifier_tuple) NoSuchTableError);
  try_ (glue_delete_table self database_name table_name)
    [ (EntityNotFoundException, λ e,
        raise (Exc NoSuchTableError
                 ("Table does not exist: " +:+ database_name +:+ "." +:+ table_name)
                 (Some e))) ].

Definition register_table (self : GlueCatalog) (identifier : IdentifierArg)
    (metadata_location : string) : M Σ Table :=
  raise (Exc NotImplementedError "" None).

Definition rename_table (self : GlueCatalog)
    (from_identifier to_identifier : IdentifierArg) : M Σ Table :=
  let from_identifier_tuple := identifier_to_tuple_without_catalog self from_identifier in
  '(from_database_name, from_table_name) ←
    lift (identifier_to_database_and_table (IdTuple from_identifier_tuple)
                                           NoSuchTableError);
  '(to_database_name, to_table_name) ←
    lift (identifier_to_database_and_table to_identifier ValueError);
  get_table_response ←
    try_ (glue_get_table self from_database_name from_table_name)
      [ (EntityNotFoundException, λ e,
          raise (Exc NoSuchTableError
                   ("Table does not exist: " +:+ from_database_name +:+ "."
                    +:+ from_table_name) (Some e))) ];
  let glue_table := glue.r_Table get_table_response in
  (* verify that from_identifier is a valid iceberg table *)
  try_ (_convert_glue_to_iceberg self glue_table;; mret tt)
    [ (NoSuchPropertyException, λ e,
        raise (Exc NoSuchPropertyException
                 ("Failed to rename table " +:+ from_database_name +:+ "."
                  +:+ from_table_name +:+ " since it is missing required properties")
                 (Some e)));
      (NoSuchIcebergTableError, λ e,
        raise (Exc NoSuchIcebergTableError
                 ("Failed to rename table " +:+ from_database_name +:+ "."
                  +:+ from_table_name +:+ " since it is not a valid iceberg table")
                 (Some e))) ];;
  rename_table_input ← lift (_construct_rename_table_input to_table_name glue_table);
  _create_glue_table self to_database_name to_table_name rename_table_input;;
  try_ (drop_table self from_identifier)
    [ (PyException, λ e,
        let log_message :=
          "Failed to drop old table " +:+ from_database_name +:+ "."
          +:+ from_table_name +:+ ". " in
        log_message ←
          try_ (drop_table self to_identifier;;
                mret (log_message +:+ "Rolled back table creation for "
                      +:+ to_database_name +:+ "." +:+ to_table_name +:+ "."))
            [ (NoSuchTableError, λ _,
                mret (log_message +:+ "Failed to roll back table creation for "
                      +:+ to_database_name +:+ "." +:+ to_table_name +:+ ". "
                      +:+ "Please clean up manually")) ];
        raise (Exc ValueError log_message (Some e))) ];;
  load_table self to_identifier.

Definition create_namespace (self : GlueCatalog) (namespace : IdentifierArg)
    (props : Properties) : M Σ unit :=
  database_name ← lift (identifier_to_database namespace ValueError);
  try_ (glue_create_database self (_construct_database_input database_name props))
    [ (AlreadyExistsException, λ e,
        raise (Exc NamespaceAlreadyExistsError
                 ("Database " +:+ database_name +:+ " already exists") (Some e))) ].

(** The [while True] loop of [list_tables]; [fuel] bounds the number of
    pages that are requested. *)
Fixpoint list_tables_loop (fuel : nat) (self : GlueCatalog) (database_name : string)
    (next_token : option string) (table_list : list TableDef)
  : M Σ (list TableDef) :=
  match fuel with
  | O => λ w, (Diverged, w)
  | S fuel =>
      table_list_response ←
        (if negb (truthy next_token)
         then glue_get_tables self database_name None
         else glue_get_tables self database_name next_token);
      let table_list := table_list ++ glue.r_TableList table_list_response in
      let next_token := glue.r_NextToken table_list_response in
      if negb (truthy next_token) then mret table_list
      else list_tables_loop fuel self database_name next_token table_list
  end.

Definition list_tables (fuel : nat) (self : GlueCatalog) (namespace : IdentifierArg)
  : M Σ (list Identifier) :=
  database_name ← lift (identifier_to_database namespace NoSuchNamespaceError);
  let table_list := [] in
  let next_token := None in
  table_list ←
    try_ (glue_get_tables self database_name None;;
          list_tables_loop fuel self database_name next_token table_list)
      [ (EntityNotFoundException, λ e,
          raise (Exc NoSuchNamespaceError
                   ("Database does not exist: " +:+ database_name) (Some e))) ];
  mret ((λ table, [database_name; Name table]) <$> table_list).

Definition drop_namespace (fuel : nat) (self : GlueCatalog) (namespace : IdentifierArg)
  : M Σ unit :=
  database_name ← lift (identifier_to_database namespace NoSuchNamespaceError);
  table_list ←
    try_ (list_tables fuel self (IdStr database_name))
      [ (NoSuchNamespaceError, λ e,
          raise (Exc NoSuchNamespaceError
                   ("Database does not exist: " +:+ database_name) (Some e))) ];
  if (0 <? length table_list)%nat then
    raise (Exc NamespaceNotEmptyError
             ("Database " +:+ database_name +:+ " is not empty") None)
  else glue_delete_database self database_name.

(** The [while True] loop of [list_namespaces]. *)
Fixpoint list_namespaces_loop (fuel : nat) (self : GlueCatalog)
    (next_token : option string) (database_list : list DatabaseTypeDef)
  : M Σ (list DatabaseTypeDef) :=
  match fuel with
  | O => λ w, (Diverged, w)
  | S fuel =>
      databases_response ←
        (if negb (truthy next_token)
         then glue_get_databases self None
         else glue_get_databases self next_token);
      let database_list := database_list ++ glue.r_DatabaseList databases_response in
      let next_token := glue.r_DatabasesNextToken databases_response in
      if negb (truthy next_token) then mret database_list
      else list_namespaces_loop fuel self next_token database_list
  end.

Definition list_namespaces (fuel : nat) (self : GlueCatalog) (namespace : IdentifierArg)
  : M Σ (list Identifier) :=
  (* Hierarchical namespace is not supported. Return an empty list *)
  if truthy namespace then mret []
  else
    let database_list := [] in
    glue_get_databases self None;;
    let next_token := None in
    database_list ← list_namespaces_loop fuel self next_token database_list;
    mret ((λ database, identifier_to_tuple (IdStr (db_Name database))) <$> database_list).

Definition load_namespace_properties (self : GlueCatalog) (namespace : IdentifierArg)
  : M Σ Properties :=
  database_name ← lift (identifier_to_database namespace NoSuchNamespaceError);
  database_response ←
    try_ (glue_get_database self database_name)
      [ (EntityNotFoundException, λ e,
          raise (Exc NoSuchNamespaceError
                   ("Database does not exist: " +:+ database_name) (Some e)));
        (InvalidInputException, λ e,
          raise (Exc NoSuchNamespaceError
                   ("Invalid input for namespace " +:+ database_name) (Some e))) ];
  let database := glue.r_Database database_response in
  mret (properties_of_database database).

Definition update_namespace_properties (self : GlueCatalog)
    (namespace : IdentifierArg) (removals : option (gset string))
    (updates : Properties) : M Σ PropertiesUpdateSummary :=
  current_properties ← load_namespace_properties self namespace;
  '(properties_update_summary, updated_properties) ←
    lift (_get_updated_props_and_update_summary current_properties removals updates);
  database_name ← lift (identifier_to_database namespace NoSuchNamespaceError);
  glue_update_database self database_name
    (_construct_database_input database_name updated_properties);;
  mret properties_update_summary.

(** Modelled from the spec: [Catalog._get_default_warehouse_location]: "if
    [location] is empty, derives one deterministically from the
    namespace/table default location policy" (section 4.3): the namespace's
    own location if it has one, else the catalog's warehouse. *)
Definition _get_default_warehouse_location (self : GlueCatalog)
    (database_name table_name : string) : M Σ string :=
  database_properties ← load_namespace_properties self (IdStr database_name);
  if truthy (database_properties !! LOCATION) then
    mret (default "" (database_properties !! LOCATION) +:+ "/" +:+ table_name)
  else if truthy (properties self !! WAREHOUSE_LOCATION) then
    mret (default "" (properties self !! WAREHOUSE_LOCATION) +:+ "/"
          +:+ database_name +:+ ".db/" +:+ table_name)
  else
    raise (Exc ValueError
             "No default path is set, please specify a location when creating a table"
             None).

(** Modelled from the spec: [Catalog._resolve_table_location]: a location
    that is given and not empty is taken as it is (section 4.3). *)
Definition _resolve_table_location (self : GlueCatalog) (location : option string)
    (database_name table_name : string) : M Σ string :=
  match location with
  | Some l => if truthy l then mret l
              else _get_default_warehouse_location self database_name table_name
  | None => _get_default_warehouse_location self database_name table_name
  end.

Definition create_table (self : GlueCatalog) (identifier : IdentifierArg)
    (schema : Schema) (location : option string) (partition_spec : PartitionSpec)
    (sort_order : SortOrder) (props : Properties) : M Σ Table :=
  '(database_name, table_name) ←
    lift (identifier_to_database_and_table identifier ValueError);
  location ← _resolve_table_location self location database_name table_name;
  metadata_location ← _get_metadata_location location;
  let metadata :=
    new_table_metadata location schema partition_spec sort_order props in
  let io := load_file_io (properties self) metadata_location in
  _write_metadata metadata io metadata_location;;
  let table_input :=
    _construct_create_table_input table_name metadata_location props in
  '(database_name, table_name) ←
    lift (identifier_to_database_and_table identifier ValueError);
  _create_glue_table self database_name table_name table_input;;
  load_table self identifier.
End Catalog.


(** * Sample values and a scripted client *)

(** Modelled from the spec: the constants of [pyiceberg.catalog], with the
    values that the example of section 8 shows for an entity
    ([{type=ICEBERG, metadata_location=...}]) and that [glue.py] itself spells
    out (["table_type"] in a message, [properties["location"]]). *)
Definition pyiceberg_constants : CatalogConstants :=
  {| EXTERNAL_TABLE := "EXTERNAL_TABLE";
     ICEBERG := "iceberg";
     LOCATION := "location";
     METADATA_LOCATION := "metadata_location";
     TABLE_TYPE := "table_type";
     WAREHOUSE_LOCATION := "warehouse" |}.

(** Collaborators reduced to what the catalog hands around: a table metadata
    object is its location and its properties. *)
Definition plain_collaborators : Collaborators :=
  {| StorageDescriptorTypeDef := string;
     Schema := list (string * string);
     PartitionSpec := unit;
     SortOrder := unit;
     TableMetadata := string * Properties;
     new_table_metadata := λ location _ _ _ props, (location, props);
     metadata_properties := snd |}.

(** A client that replays a script of answers, one per request, in the manner
    of botocore's [Stubber]. *)
Module Stub.
Section Stub.
#[local] Existing Instance plain_collaborators.

Inductive Answer :=
| Fails (code message : string)
| Done
| OneTable (t : TableTypeDef string)
| Tables (page : list (TableTypeDef string)) (next_token : option string)
| OneDatabase (d : DatabaseTypeDef)
| Databases (page : list DatabaseTypeDef) (next_token : option string).

Definition unexpected : glue.Failure :=
  {| glue.code := "StubResponseError"; glue.message := "unexpected request" |}.

Definition answer {A} (pick : Answer → option A) (script : list Answer)
  : (glue.Failure + A) * list Answer :=
  match script with
  | [] => (inl unexpected, [])
  | Fails c m :: rest => (inl {| glue.code := c; glue.message := m |}, rest)
  | a :: rest =>
      (match pick a with Some x => inr x | None => inl unexpected end, rest)
  end.

Definition done (a : Answer) : option unit :=
  match a with Done => Some tt | _ => None end.

Definition client : glue.Client (list Answer) :=
  {| glue.get_table := λ _ _,
       answer (λ a, match a with
                    | OneTable t => Some {| glue.r_Table := t |}
                    | _ => None end);
     glue.create_table := λ _ _, answer done;
     glue.delete_table := λ _ _, answer done;
     glue.get_tables := λ _ _,
       answer (λ a, match a with
                    | Tables p t => Some {| glue.r_TableList := p; glue.r_NextToken := t |}
                    | _ => None end);
     glue.create_database := λ _, answer done;
     glue.get_database := λ _,
       answer (λ a, match a with
                    | OneDatabase d => Some {| glue.r_Database := d |}
                    | _ => None end);
     glue.update_database := λ _ _, answer done;
     glue.delete_database := λ _, answer done;
     glue.get_databases := λ _,
       answer (λ a, match a with
                    | Databases p t =>
                        Some {| glue.r_DatabaseList := p;
                                glue.r_DatabasesNextToken := t |}
                    | _ => None end) |}.

(** A world with the given script and content store, and nothing in its
    history. *)
Definition world (script : list Answer) (store : gmap string (string * Properties))
  : World (list Answer) :=
  {| backend := script; files := store; entropy := ["0000-1111"]; history := [] |}.
End Stub.
End Stub.

(** ** Ways of speaking about outcomes and histories *)

Definition raised {A} (o : Outcome A) (cls : ExcClass) : Prop :=
  ∃ e, o = Raise e ∧ exc_class e = cls.

Section Histories.
Context `{Collaborators}.

(** [DeleteTable], whatever its target. *)
Definition is_delete_table (ev : Event) : bool :=
  match ev with
  | Requested (glue.DeleteTable _ _) _ => true
  | _ => false
  end.

Definition is_update_database (ev : Event) : bool :=
  match ev with
  | Requested (glue.UpdateDatabase _ _) _ => true
  | _ => false
  end.

Definition is_delete_database (ev : Event) : bool :=
  match ev with
  | Requested (glue.DeleteDatabase _) _ => true
  | _ => false
  end.
End Histories.

(** ** The exceptions that the handlers of the catalog produce *)

Section Failures.
(** A failed [get_table] or [delete_table]: a not-found failure becomes
    [NoSuchTableError], any other failure is raised as the client raised
    it. *)
Definition table_failure (db n : string) (f : glue.Failure) : Exception :=
  if bool_decide (glue.code f = "EntityNotFoundException")
  then Exc NoSuchTableError ("Table does not exist: " +:+ db +:+ "." +:+ n)
           (Some (client_error f))
  else client_error f.

(** A failed [create_table], as [_create_glue_table] raises it. *)
Definition create_failure (db n : string) (f : glue.Failure) : Exception :=
  if bool_decide (glue.code f = "AlreadyExistsException")
  then Exc TableAlreadyExistsError ("Table " +:+ db +:+ "." +:+ n +:+ " already exists")
           (Some (client_error f))
  else if bool_decide (glue.code f = "EntityNotFoundException")
  then Exc NoSuchNamespaceError ("Database " +:+ db +:+ " does not exist")
           (Some (client_error f))
  else client_error f.

(** A failed validation of the source, as [rename_table] raises it. *)
Definition validation_failure (db n : string) (e : Exception) : Exception :=
  if isinstance e NoSuchPropertyException
  then Exc NoSuchPropertyException
         ("Failed to rename table " +:+ db +:+ "." +:+ n
          +:+ " since it is missing required properties") (Some e)
  else if isinstance e NoSuchIcebergTableError
  then Exc NoSuchIcebergTableError
         ("Failed to rename table " +:+ db +:+ "." +:+ n
          +:+ " since it is not a valid iceberg table") (Some e)
  else e.

(** The two messages of the failure path of [rename_table]. *)
Definition rolled_back_message (fd fn td tn : string) : string :=
  ("Failed to drop old table " +:+ fd +:+ "." +:+ fn +:+ ". ")
  +:+ "Rolled back table creation for " +:+ td +:+ "." +:+ tn +:+ ".".

Definition clean_up_message (fd fn td tn : string) : string :=
  ("Failed to drop old table " +:+ fd +:+ "." +:+ fn +:+ ". ")
  +:+ "Failed to roll back table creation for " +:+ td +:+ "." +:+ tn +:+ ". "
  +:+ "Please clean up manually".
End Failures.

(** ** The validation of a table entity, as the design document words it *)

Section AsStated.
Context `{CatalogConstants} `{Collaborators} {Σ : Type}.

(** [fromTableEntity]: "fails with [MissingProperty] if the
    metadata-location property is absent; fails with [NotThisFormat] if the
    type marker is absent or mismatched; otherwise returns the location". *)
Definition fromTableEntity_as_stated (self : GlueCatalog (Σ := Σ))
    (glue_table : TableTypeDef StorageDescriptorTypeDef) (w : World Σ) : Prop :=
  let o := (_convert_glue_to_iceberg self glue_table w).1 in
  ∀ props, Parameters glue_table = Some props →
    (props !! METADATA_LOCATION = None → raised o NoSuchPropertyException) ∧
    (¬ (∃ t, props !! TABLE_TYPE = Some t ∧ lower t = ICEBERG) →
     raised o NoSuchIcebergTableError) ∧
    (∀ t location metadata,
       props !! TABLE_TYPE = Some t → lower t = ICEBERG →
       props !! METADATA_LOCATION = Some location →
       files w !! location = Some metadata →
       ∃ table, o = Return table ∧ metadata_location table = location).
End AsStated.

(** ** The ways [rename_table] fails before it deletes anything *)

Section EarlyFailures.
Context `{CatalogConstants} `{Collaborators} {Σ : Type}.

(** [fails_before_delete self fd fn td tn w cls]: in the world [w] the
    rename of [fd.fn] to [td.tn] meets one of the four obstacles that
    precede the deletion of the source, and [cls] is the error it is
    reported with. *)
Inductive fails_before_delete (self : GlueCatalog (Σ := Σ))
    (fd fn td tn : string) (w : World Σ) : ExcClass → Prop :=
| source_absent f σ :
    glue.get_table (client self) fd fn (backend w) = (inl f, σ) →
    glue.code f = "EntityNotFoundException" →
    fails_before_delete self fd fn td tn w NoSuchTableError
| source_not_valid response σ e :
    glue.get_table (client self) fd fn (backend w) = (inr response, σ) →
    (_convert_glue_to_iceberg self (glue.r_Table response)
       (record w σ (Requested (glue.GetTable fd fn) None))).1 = Raise e →
    exc_class e = NoSuchPropertyException ∨ exc_class e = NoSuchIcebergTableError →
    fails_before_delete self fd fn td tn w (exc_class e)
| destination_exists response σ table table_input f σ' :
    glue.get_table (client self) fd fn (backend w) = (inr response, σ) →
    (_convert_glue_to_iceberg self (glue.r_Table response)
       (record w σ (Requested (glue.GetTable fd fn) None))).1 = Return table →
    _construct_rename_table_input tn (glue.r_Table response) = Return table_input →
    glue.create_table (client self) td table_input σ = (inl f, σ') →
    glue.code f = "AlreadyExistsException" →
    fails_before_delete self fd fn td tn w TableAlreadyExistsError
| destination_namespace_absent response σ table table_input f σ' :
    glue.get_table (client self) fd fn (backend w) = (inr response, σ) →
    (_convert_glue_to_iceberg self (glue.r_Table response)
       (record w σ (Requested (glue.GetTable fd fn) None))).1 = Return table →
    _construct_rename_table_input tn (glue.r_Table response) = Return table_input →
    glue.create_table (client self) td table_input σ = (inl f, σ') →
    glue.code f = "EntityNotFoundException" →
    fails_before_delete self fd fn td tn w NoSuchNamespaceError.
End EarlyFailures.

(** ** Result sets served in pages *)

Section Pages.
Context `{Collaborators} {Σ : Type}.

(** [tables_paged self db token σ pages σ']: asked for the tables of [db]
    with [token] in state [σ], the service answers the first of [pages] and
    links it to the next by a continuation token, and so on to the last
    page, which carries no token (none, or an empty one); the service is
    then in state [σ']. *)
Inductive tables_paged (self : GlueCatalog (Σ := Σ)) (db : string)
  : option string → Σ → list (list (TableTypeDef StorageDescriptorTypeDef)) → Σ → Prop :=
| tables_last_page token σ page next σ' :
    glue.get_tables (client self) db token σ
    = (inr {| glue.r_TableList := page; glue.r_NextToken := next |}, σ') →
    truthy next = false →
    tables_paged self db token σ [page] σ'
| tables_next_page token σ page next σ1 pages σ' :
    glue.get_tables (client self) db token σ
    = (inr {| glue.r_TableList := page; glue.r_NextToken := Some next |}, σ1) →
    next ≠ "" →
    tables_paged self db (Some next) σ1 pages σ' →
    tables_paged self db token σ (page :: pages) σ'.

Inductive databases_paged (self : GlueCatalog (Σ := Σ))
  : option string → Σ → list (list DatabaseTypeDef) → Σ → Prop :=
| databases_last_page token σ page next σ' :
    glue.get_databases (client self) token σ
    = (inr {| glue.r_DatabaseList := page; glue.r_DatabasesNextToken := next |}, σ') →
    truthy next = false →
    databases_paged self token σ [page] σ'
| databases_next_page token σ page next σ1 pages σ' :
    glue.get_databases (client self) token σ
    = (inr {| glue.r_DatabaseList := page;
              glue.r_DatabasesNextToken := Some next |}, σ1) →
    next ≠ "" →
    databases_paged self (Some next) σ1 pages σ' →
    databases_paged self token σ (page :: pages) σ'.
End Pages.

(** ** Sample entities *)

Section Samples.
#[local] Existing Instance pyiceberg_constants.
#[local] Existing Instance plain_collaborators.

Definition sample_catalog : GlueCatalog :=
  {| name := "glue"; properties := ∅; client := Stub.client |}.

Definition sample_location : string := "s3://warehouse/db/t1/metadata/v1.json".

(** A registered Iceberg table [db.t1]. *)
Definition iceberg_entity : TableTypeDef string :=
  {| Name := "t1"; DatabaseName := Some "db"; Owner := Some "alice";
     TableType := Some "EXTERNAL_TABLE";
     Parameters := Some {[ "table_type" := "ICEBERG";
                           "metadata_location" := sample_location ]};
     StorageDescriptor := Some "s3://warehouse/db/t1";
     Description := None |}.

(** The same entity without the type marker. *)
Definition entity_without_type_marker : TableTypeDef string :=
  {| Name := "t1"; DatabaseName := Some "db"; Owner := Some "alice";
     TableType := Some "EXTERNAL_TABLE";
     Parameters := Some {[ "metadata_location" := sample_location ]};
     StorageDescriptor := Some "s3://warehouse/db/t1";
     Description := None |}.

Definition sample_store : gmap string (string * Properties) :=
  {[ sample_location := ("s3://warehouse/db/t1", ∅) ]}.

(** The entity that a rename of [iceberg_entity] to [t2] submits. *)
Definition renamed_input : TableInputTypeDef string :=
  {| in_Name := "t2"; in_TableType := Some "EXTERNAL_TABLE";
     in_Owner := Some "alice";
     in_Parameters := Some {[ "table_type" := "ICEBERG";
                              "metadata_location" := sample_location ]};
     in_StorageDescriptor := Some "s3://warehouse/db/t1";
     in_Description := None |}.

(** A principal that may read and create tables but not delete them: the
    source is found, the destination is created, and both deletions are
    denied. *)
Definition denied : glue.Failure :=
  {| glue.code := "AccessDeniedException";
     glue.message := "not authorized to perform: glue:DeleteTable" |}.

Definition deletions_denied : list Stub.Answer :=
  [ Stub.OneTable iceberg_entity; Stub.Done;
    Stub.Fails (glue.code denied) (glue.message denied);
    Stub.Fails (glue.code denied) (glue.message denied) ].

(** The same principal when the destination has vanished before the
    compensating deletion, and when only the first deletion fails. *)
Definition destination_vanished : list Stub.Answer :=
  [ Stub.OneTable iceberg_entity; Stub.Done;
    Stub.Fails (glue.code denied) (glue.message denied);
    Stub.Fails "EntityNotFoundException" "Table t2 not found." ].

Definition first_deletion_denied : list Stub.Answer :=
  [ Stub.OneTable iceberg_entity; Stub.Done;
    Stub.Fails (glue.code denied) (glue.message denied);
    Stub.Done ].

Definition table_named (n : string) : TableTypeDef string :=
  {| Name := n; DatabaseName := Some "db"; Owner := None; TableType := None;
     Parameters := None; StorageDescriptor := None; Description := None |}.

Definition database_named (n : string) : DatabaseTypeDef :=
  {| db_Name := n; db_Description := None; db_LocationUri := None;
     db_Parameters := None |}.

(** Three pages of tables, after the answer to the first request. *)
Definition three_pages : list Stub.Answer :=
  [ Stub.Tables [table_named "t1"] (Some "p2");
    Stub.Tables [table_named "t1"; table_named "t2"] (Some "p2");
    Stub.Tables [table_named "t3"] (Some "p3");
    Stub.Tables [] None ].

Definition two_pages_of_databases : list Stub.Answer :=
  [ Stub.Databases [] None;
    Stub.Databases [database_named "a"; database_named "b"] (Some "p2");
    Stub.Databases [database_named "c"] (Some "") ].

(** The answers to the first request of each listing. *)
Definition first_tables_answer : glue.GetTablesResponse :=
  {| glue.r_TableList := [table_named "t1"]; glue.r_NextToken := Some "p2" |}.

Definition first_databases_answer : glue.GetDatabasesResponse :=
  {| glue.r_DatabaseList := []; glue.r_DatabasesNextToken := None |}.

Definition created_location : string :=
  "s3://warehouse/db/t1/metadata/00000-0000-1111.metadata.json".
End Samples.

(** ** Listings that fail, and listings that never end *)

Section FailingPages.
Context `{Collaborators} {Σ : Type}.

(** [GetTables] on the database [db], whatever its token and its answer. *)
Definition is_get_tables (db : string) (ev : Event) : bool :=
  match ev with
  | Requested (glue.GetTables db' _) _ => bool_decide (db' = db)
  | _ => false
  end.

(** [tables_fail_after self db f token σ n σ']: asked for the tables of [db]
    with [token] in state [σ], the service answers [n] pages, each linked to
    the next by a non-empty token, and fails the request after them with
    [f]; it is then in state [σ']. *)
Inductive tables_fail_after (self : GlueCatalog (Σ := Σ)) (db : string)
    (f : glue.Failure) : option string → Σ → nat → Σ → Prop :=
| tables_fail_at_once token σ σ' :
    glue.get_tables (client self) db token σ = (inl f, σ') →
    tables_fail_after self db f token σ 0 σ'
| tables_fail_later token σ page next σ1 n σ' :
    glue.get_tables (client self) db token σ
    = (inr {| glue.r_TableList := page; glue.r_NextToken := Some next |}, σ1) →
    next ≠ "" →
    tables_fail_after self db f (Some next) σ1 n σ' →
    tables_fail_after self db f token σ (S n) σ'.

Inductive databases_fail_after (self : GlueCatalog (Σ := Σ))
    (f : glue.Failure) : option string → Σ → nat → Σ → Prop :=
| databases_fail_at_once token σ σ' :
    glue.get_databases (client self) token σ = (inl f, σ') →
    databases_fail_after self f token σ 0 σ'
| databases_fail_later token σ page next σ1 n σ' :
    glue.get_databases (client self) token σ
    = (inr {| glue.r_DatabaseList := page;
              glue.r_DatabasesNextToken := Some next |}, σ1) →
    next ≠ "" →
    databases_fail_after self f (Some next) σ1 n σ' →
    databases_fail_after self f token σ (S n) σ'.
End FailingPages.

Section MoreSamples.
#[local] Existing Instance pyiceberg_constants.
#[local] Existing Instance plain_collaborators.

(** A service that answers every [GetTables] request with one table and a
    token for more, and refuses everything else. *)
Definition refused {A} : unit → (glue.Failure + A) * unit :=
  λ σ, (inl Stub.unexpected, σ).

Definition endless_client : glue.Client unit :=
  {| glue.get_table := λ _ _, refused;
     glue.create_table := λ _ _, refused;
     glue.delete_table := λ _ _, refused;
     glue.get_tables := λ _ _ σ,
       (inr {| glue.r_TableList := [table_named "t1"];
               glue.r_NextToken := Some "more" |}, σ);
     glue.create_database := λ _, refused;
     glue.get_database := λ _, refused;
     glue.update_database := λ _ _, refused;
     glue.delete_database := λ _, refused;
     glue.get_databases := λ _, refused |}.

Definition endless_catalog : GlueCatalog :=
  {| name := "glue"; properties := ∅; client := endless_client |}.

Definition endless_world : World unit :=
  {| backend := tt; files := ∅; entropy := []; history := [] |}.

(** Two pages of tables, then the namespace is gone. *)
Definition vanishing_namespace : list Stub.Answer :=
  [ Stub.Tables [table_named "t1"] (Some "p2");
    Stub.Tables [table_named "t1"] (Some "p2");
    Stub.Tables [table_named "t2"] (Some "p3");
    Stub.Fails "EntityNotFoundException" "Database db not found." ].

(** A page of databases, then the service throttles. *)
Definition throttled : list Stub.Answer :=
  [ Stub.Databases [] None;
    Stub.Databases [database_named "a"] (Some "p2");
    Stub.Fails "ThrottlingException" "Rate exceeded." ].

(** A namespace entity with a description, a location and one parameter. *)
Definition sales_properties : Properties :=
  {[ "Description" := "sales"; "location" := "s3://warehouse/db";
     "owner" := "alice" ]}.

(** [db.t1] as the metastore shows it under its new name [db.t2]. *)
Definition renamed_entity : TableTypeDef string :=
  {| Name := "t2"; DatabaseName := Some "db"; Owner := Some "alice";
     TableType := Some "EXTERNAL_TABLE";
     Parameters := Some {[ "table_type" := "ICEBERG";
                           "metadata_location" := sample_location ]};
     StorageDescriptor := Some "s3://warehouse/db/t1";
     Description := None |}.

Definition renamed_once : list Stub.Answer :=
  [ Stub.OneTable iceberg_entity; Stub.Done; Stub.Done; Stub.OneTable renamed_entity ].

(** [db.t1] as the metastore shows it right after [create_table]. *)
Definition created_entity : TableTypeDef string :=
  {| Name := "t1"; DatabaseName := Some "db"; Owner := None;
     TableType := Some "EXTERNAL_TABLE";
     Parameters := Some {[ "table_type" := "ICEBERG";
                           "metadata_location" := created_location ]};
     StorageDescriptor := None; Description := None |}.

Definition created_once : list Stub.Answer :=
  [ Stub.Done; Stub.OneTable created_entity ].

(** The answers of the metastore that carry the sample entities. *)
Definition found_iceberg_entity : glue.GetTableResponse :=
  {| glue.r_Table := iceberg_entity |}.

(** [db.t1] as [load_table] returns it. *)
Definition loaded_iceberg_table : Table :=
  {| identifier := ["glue"; "db"; "t1"];
     metadata := ("s3://warehouse/db/t1", ∅);
     metadata_location := sample_location;
     io := _load_file_io sample_catalog ∅ sample_location;
     catalog := sample_catalog |}.

Definition sales_database : DatabaseTypeDef :=
  {| db_Name := "db"; db_Description := Some "sales";
     db_LocationUri := Some "s3://warehouse/db";
     db_Parameters := Some {[ "owner" := "alice" ]} |}.

Definition found_sales_database : glue.GetDatabaseResponse :=
  {| glue.r_Database := sales_database |}.
End MoreSamples.
(** * Properties of the entity translators *)

Section TranslatorFacts.
Context `{CatalogConstants} {StorageDescriptorTypeDef : Type}.

(** What the loop of [_construct_database_input] has computed once the
    items of [properties] are exhausted. *)
Lemma database_input_loop (database_name : string) (props : Properties) :
  LOCATION ≠ "Description" →
  map_fold database_input_step
    ({| db_Name := database_name; db_Description := None;
        db_LocationUri := None; db_Parameters := None |}, ∅) props
  = ({| db_Name := database_name;
        db_Description := props !! "Description";
        db_LocationUri := props !! LOCATION;
        db_Parameters := None |},
     filter (λ kv, kv.1 ≠ "Description" ∧ kv.1 ≠ LOCATION) props).
Proof.
  intros Hne.
  apply (map_fold_weak_ind (λ st (m : Properties),
    st = ({| db_Name := database_name;
             db_Description := m !! "Description";
             db_LocationUri := m !! LOCATION;
             db_Parameters := None |},
          filter (λ kv, kv.1 ≠ "Description" ∧ kv.1 ≠ LOCATION) m))).
  - by rewrite !lookup_empty, map_filter_empty.
  - intros k v m st Hfresh ->. unfold database_input_step; cbn.
    destruct (decide (k = "Description")) as [->|Hk1].
    + rewrite lookup_insert_eq, lookup_insert_ne by done.
      rewrite map_filter_insert_False by (cbn; tauto).
      by rewrite delete_id by done.
    + destruct (decide (k = LOCATION)) as [->|Hk2].
      * rewrite lookup_insert_eq, lookup_insert_ne by done.
        rewrite map_filter_insert_False by (cbn; tauto).
        by rewrite delete_id by done.
      * rewrite !lookup_insert_ne by done.
        by rewrite map_filter_insert_True by (cbn; tauto).
Qed.

Lemma _construct_database_input_fields (database_name : string) (props : Properties) :
  LOCATION ≠ "Description" →
  _construct_database_input database_name props
  = {| db_Name := database_name;
       db_Description := props !! "Description";
       db_LocationUri := props !! LOCATION;
       db_Parameters :=
         Some (filter (λ kv, kv.1 ≠ "Description" ∧ kv.1 ≠ LOCATION) props) |}.
Proof.
  intros Hne. unfold _construct_database_input.
  by rewrite database_input_loop.
Qed.

(** C4: a properties map that is translated to a namespace entity by
    [_construct_database_input] and translated back as
    [load_namespace_properties] does is the map one started from, the
    constant [LOCATION] being the key ["location"] that the way back
    writes. *)
Theorem namespace_properties_round_trip (database_name : string) (props : Properties) :
  LOCATION = "location" →
  properties_of_database (_construct_database_input database_name props) = props.
Proof.
  intros Hloc.
  rewrite _construct_database_input_fields by (rewrite Hloc; done).
  unfold properties_of_database; cbn. rewrite Hloc.
  apply map_eq; intros k.
  destruct (decide (k = "Description")) as [->|Hd].
  - destruct (props !! "Description") as [d|] eqn:Ed.
    + by rewrite lookup_insert_eq.
    + destruct (props !! "location") as [l|] eqn:El.
      * rewrite lookup_insert_ne by done.
        apply map_lookup_filter_None; right; cbn; intros; tauto.
      * apply map_lookup_filter_None; right; cbn; intros; tauto.
  - destruct (decide (k = "location")) as [->|Hl].
    + destruct (props !! "Description") as [d|] eqn:Ed;
        [rewrite lookup_insert_ne by done|];
        (destruct (props !! "location") as [l|] eqn:El;
         [by rewrite lookup_insert_eq
         |apply map_lookup_filter_None; right; cbn; intros; tauto]).
    + assert (filter (λ kv : string * string, kv.1 ≠ "Description" ∧ kv.1 ≠ "location")
                props !! k = props !! k) as Hk.
      { destruct (props !! k) as [v|] eqn:Ek.
        - apply map_lookup_filter_Some; split; [done|cbn; tauto].
        - apply map_lookup_filter_None; by left. }
      destruct (props !! "Description"), (props !! "location");
        rewrite ?lookup_insert_ne by done; done.
Qed.

(** C3: [_construct_rename_table_input] either finds no table type on the
    source (absent or empty) and builds nothing, or builds the source's
    type, owner, properties bag, storage descriptor and description
    unchanged, each present exactly when the source has it, under the
    destination name. *)
Theorem rename_input_keeps_bookkeeping
    (to_table_name : string) (glue_table : TableTypeDef StorageDescriptorTypeDef) :
  match _construct_rename_table_input to_table_name glue_table with
  | Return rename_table_input =>
      truthy (TableType glue_table) = true ∧
      rename_table_input =
        {| in_Name := to_table_name;
           in_TableType := TableType glue_table;
           in_Owner := Owner glue_table;
           in_Parameters := Parameters glue_table;
           in_StorageDescriptor := StorageDescriptor glue_table;
           in_Description := Description glue_table |}
  | Raise e =>
      truthy (TableType glue_table) = false ∧
      (exc_class e = KeyError ∨ exc_class e = AssertionError)
  | Diverged => False
  end.
Proof.
  unfold _construct_rename_table_input.
  destruct (TableType glue_table) as [[|c t]|]; cbn; unfold truthy; cbn; auto.
Qed.
End TranslatorFacts.

(** * Properties of the catalog *)

Section CatalogFacts.
Context `{CatalogConstants} `{Collaborators} {Σ : Type}.
Implicit Types (self : GlueCatalog (Σ := Σ)) (w : World Σ).

Abbreviation TableDef := (TableTypeDef StorageDescriptorTypeDef).
Abbreviation TableInput := (TableInputTypeDef StorageDescriptorTypeDef).

(** ** Running a call *)

Lemma run_bind {A B} (m : M Σ A) (f : A → M Σ B) w :
  (m ≫= f) w =
  match m w with
  | (Return a, w') => f a w'
  | (Raise e, w') => (Raise e, w')
  | (Diverged, w') => (Diverged, w')
  end.
Proof. reflexivity. Qed.

Lemma run_lift_bind {A B} (o : Outcome A) (f : A → M Σ B) w :
  (lift o ≫= f) w =
  match o with
  | Return a => f a w
  | Raise e => (Raise e, w)
  | Diverged => (Diverged, w)
  end.
Proof. rewrite run_bind. unfold lift. by destruct o. Qed.

Lemma run_ret {A} (a : A) w : (mret a : M Σ A) w = (Return a, w).
Proof. reflexivity. Qed.

Lemma run_raise {A} (e : Exception) w : (raise e : M Σ A) w = (Raise e, w).
Proof. reflexivity. Qed.

Lemma run_try {A} (body : M Σ A) handlers w :
  try_ body handlers w =
  match body w with
  | (Raise e, w') =>
      match find_handler handlers e with
      | Some handler => handler w'
      | None => (Raise e, w')
      end
  | r => r
  end.
Proof. reflexivity. Qed.

Lemma isinstance_client_error (f : glue.Failure) (code : string) :
  isinstance (client_error f) (ClientError code) = bool_decide (glue.code f = code).
Proof.
  unfold isinstance, issubclass, client_error; cbn.
  apply bool_decide_ext. split; congruence.
Qed.

Lemma isinstance_PyException (e : Exception) : isinstance e PyException = true.
Proof. reflexivity. Qed.

(** ** The resolvers *)

Lemma resolve_table_class (identifier : IdentifierArg) (err err' : ExcClass) p :
  identifier_to_database_and_table identifier err = Return p →
  identifier_to_database_and_table identifier err' = Return p.
Proof.
  unfold identifier_to_database_and_table.
  destruct (identifier_to_tuple identifier) as [|a [|b [|c l]]]; try done.
  by destruct (truthy a && truthy b).
Qed.

Lemma resolve_table_tuple (identifier : IdentifierArg) (err : ExcClass) db n :
  identifier_to_database_and_table identifier err = Return (db, n) →
  identifier_to_tuple identifier = [db; n].
Proof.
  unfold identifier_to_database_and_table.
  destruct (identifier_to_tuple identifier) as [|a [|b [|c l]]]; try done.
  destruct (truthy a && truthy b); [|done]. by intros [= -> ->].
Qed.

(** An identifier that resolves to a table resolves to the same table when
    the catalog name is stripped first, which is how [drop_table] and
    [load_table] resolve it. *)
Lemma resolve_table_without_catalog self (identifier : IdentifierArg)
    (err err' : ExcClass) db n :
  identifier_to_database_and_table identifier err = Return (db, n) →
  identifier_to_database_and_table
    (IdTuple (identifier_to_tuple_without_catalog self identifier)) err'
  = Return (db, n).
Proof.
  intros Hr. pose proof (resolve_table_tuple _ _ _ _ Hr) as Ht.
  unfold identifier_to_tuple_without_catalog. rewrite Ht; cbn.
  apply (resolve_table_class _ _ err') in Hr.
  unfold identifier_to_database_and_table in *. rewrite Ht in Hr. cbn.
  by destruct (truthy db && truthy n).
Qed.

(** ** Single requests *)

Lemma drop_table_run self (identifier : IdentifierArg) db n w :
  identifier_to_database_and_table
    (IdTuple (identifier_to_tuple_without_catalog self identifier)) NoSuchTableError
  = Return (db, n) →
  drop_table self identifier w =
  match glue.delete_table (client self) db n (backend w) with
  | (inr _, σ) => (Return tt, record w σ (Requested (glue.DeleteTable db n) None))
  | (inl f, σ) =>
      (Raise (table_failure db n f),
       record w σ (Requested (glue.DeleteTable db n) (Some f)))
  end.
Proof.
  intros Hr. unfold drop_table. rewrite Hr, run_lift_bind, run_try.
  unfold glue_delete_table, request, table_failure.
  destruct (glue.delete_table (client self) db n (backend w)) as [[f|[]] σ]; [|done].
  cbn [find_handler]. unfold EntityNotFoundException.
  rewrite isinstance_client_error.
  by destruct (bool_decide (glue.code f = "EntityNotFoundException")).
Qed.

Lemma _create_glue_table_run self db n (table_input : TableInput) w :
  _create_glue_table self db n table_input w =
  match glue.create_table (client self) db table_input (backend w) with
  | (inr _, σ) =>
      (Return tt, record w σ (Requested (glue.CreateTable db table_input) None))
  | (inl f, σ) =>
      (Raise (create_failure db n f),
       record w σ (Requested (glue.CreateTable db table_input) (Some f)))
  end.
Proof.
  unfold _create_glue_table. rewrite run_try.
  unfold glue_create_table, request, create_failure.
  destruct (glue.create_table (client self) db table_input (backend w))
    as [[f|[]] σ]; [|done].
  cbn [find_handler]. unfold EntityNotFoundException, AlreadyExistsException.
  rewrite !isinstance_client_error.
  by repeat case_bool_decide.
Qed.

Lemma truthy_str_ne (s : string) : truthy s = true ↔ s ≠ "".
Proof. destruct s; cbn; split; (done || congruence). Qed.

Lemma truthy_dict_ne {A} (m : gmap string A) : truthy m = true ↔ m ≠ ∅.
Proof. unfold truthy, truthy_dict. apply bool_decide_eq_true. Qed.

(** ** Validation of a table entity *)

(** The outcome of [_convert_glue_to_iceberg] on an entity that passes the
    two assertions; the world is left as it was. *)
Lemma convert_run self (glue_table : TableDef) w
    (database_name : string) (props : Properties) :
  DatabaseName glue_table = Some database_name →
  database_name ≠ "" →
  Parameters glue_table = Some props →
  props ≠ ∅ →
  ∃ o, _convert_glue_to_iceberg self glue_table w = (o, w) ∧
    match props !! TABLE_TYPE with
    | None => raised o NoSuchPropertyException
    | Some t =>
        if decide (lower t = ICEBERG) then
          match props !! METADATA_LOCATION with
          | None => raised o NoSuchPropertyException
          | Some location =>
              match files w !! location with
              | Some metadata =>
                  o = Return
                        {| identifier := [name self; database_name; Name glue_table];
                           metadata := metadata;
                           metadata_location := location;
                           io := _load_file_io self (metadata_properties metadata)
                                               location;
                           catalog := self |}
              | None => raised o FileNotFoundError
              end
          end
        else raised o NoSuchIcebergTableError
    end.
Proof.
  intros Hdb Hdbt Hp Hpt. unfold _convert_glue_to_iceberg.
  apply truthy_str_ne in Hdbt. apply truthy_dict_ne in Hpt.
  rewrite Hdb, Hp. repeat (rewrite run_lift_bind; cbn).
  rewrite Hdbt; cbn. repeat (rewrite run_lift_bind; cbn). rewrite Hpt; cbn.
  destruct (props !! TABLE_TYPE) as [t|]; [|eexists; split; [reflexivity|by eexists]].
  destruct (decide (lower t = ICEBERG)) as [Ht|Ht].
  - rewrite bool_decide_eq_false_2 by (intros ?; contradiction).
    destruct (props !! METADATA_LOCATION) as [location|];
      [|eexists; split; [reflexivity|by eexists]].
    rewrite run_bind. unfold FromInputFile_table_metadata, new_input; cbn.
    destruct (files w !! location) as [metadata|];
      eexists; (split; [reflexivity|]); [done|by eexists].
  - rewrite bool_decide_eq_true_2 by done.
    eexists; split; [reflexivity|by eexists].
Qed.

(** Validation reads the content store at most; the world stays as it is. *)
Lemma convert_world self (glue_table : TableDef) w :
  (_convert_glue_to_iceberg self glue_table w).2 = w.
Proof.
  unfold _convert_glue_to_iceberg.
  destruct (Parameters glue_table) as [props|]; [|done].
  destruct (DatabaseName glue_table) as [db|]; [|done].
  repeat (rewrite run_lift_bind; cbn).
  destruct (truthy db); [|done]. cbn. repeat (rewrite run_lift_bind; cbn).
  destruct (truthy props); [|done]. cbn.
  destruct (props !! TABLE_TYPE) as [t|]; [|done].
  destruct (bool_decide (lower t ≠ ICEBERG)); [done|].
  destruct (props !! METADATA_LOCATION) as [location|]; [|done].
  rewrite run_bind. unfold FromInputFile_table_metadata; cbn.
  by destruct (files w !! location).
Qed.

(** ** The choreography of [rename_table] *)

(** What a call of [rename_table] does, request by request, once both
    identifiers resolve. *)
Lemma rename_table_run self (from_identifier to_identifier : IdentifierArg)
    fd fn td tn w :
  identifier_to_database_and_table
    (IdTuple (identifier_to_tuple_without_catalog self from_identifier))
    NoSuchTableError = Return (fd, fn) →
  identifier_to_database_and_table to_identifier ValueError = Return (td, tn) →
  rename_table self from_identifier to_identifier w =
  match glue.get_table (client self) fd fn (backend w) with
  | (inl f, σ1) =>
      (Raise (table_failure fd fn f), record w σ1 (Requested (glue.GetTable fd fn) (Some f)))
  | (inr response, σ1) =>
      let w1 := record w σ1 (Requested (glue.GetTable fd fn) None) in
      let glue_table := glue.r_Table response in
      match (_convert_glue_to_iceberg self glue_table w1).1 with
      | Raise e => (Raise (validation_failure fd fn e), w1)
      | Diverged => (Diverged, w1)
      | Return _ =>
          match _construct_rename_table_input tn glue_table with
          | Raise e => (Raise e, w1)
          | Diverged => (Diverged, w1)
          | Return rename_table_input =>
              let create := glue.CreateTable td rename_table_input in
              match glue.create_table (client self) td rename_table_input σ1 with
              | (inl f, σ2) =>
                  (Raise (create_failure td tn f), record w1 σ2 (Requested create (Some f)))
              | (inr _, σ2) =>
                  let w2 := record w1 σ2 (Requested create None) in
                  match glue.delete_table (client self) fd fn σ2 with
                  | (inr _, σ3) =>
                      load_table self to_identifier
                        (record w2 σ3 (Requested (glue.DeleteTable fd fn) None))
                  | (inl f1, σ3) =>
                      let w3 := record w2 σ3 (Requested (glue.DeleteTable fd fn) (Some f1)) in
                      let e := table_failure fd fn f1 in
                      match glue.delete_table (client self) td tn σ3 with
                      | (inr _, σ4) =>
                          (Raise (Exc ValueError (rolled_back_message fd fn td tn) (Some e)),
                           record w3 σ4 (Requested (glue.DeleteTable td tn) None))
                      | (inl f2, σ4) =>
                          (Raise (if bool_decide (glue.code f2 = "EntityNotFoundException")
                                  then Exc ValueError (clean_up_message fd fn td tn) (Some e)
                                  else client_error f2),
                           record w3 σ4 (Requested (glue.DeleteTable td tn) (Some f2)))
                      end
                  end
              end
          end
      end
  end.
Proof.
  intros Hfrom Hto. unfold rename_table. cbn zeta.
  rewrite Hfrom, run_lift_bind. cbn beta iota.
  rewrite Hto, run_lift_bind. cbn beta iota.
  rewrite run_bind, run_try.
  unfold glue_get_table, request.
  destruct (glue.get_table (client self) fd fn (backend w)) as [[f|response] σ1].
  { cbn [find_handler]. unfold EntityNotFoundException, table_failure.
    rewrite isinstance_client_error. by case_bool_decide. }
  cbn zeta. set (w1 := record w σ1 _). set (glue_table := glue.r_Table response).
  rewrite run_bind, run_try, run_bind.
  pose proof (convert_world self glue_table w1) as Hw.
  destruct (_convert_glue_to_iceberg self glue_table w1) as [[table|e|] w1'];
    cbn in Hw; subst w1'; cbn [fst].
  2: { cbn [find_handler]. unfold validation_failure.
       destruct (isinstance e NoSuchPropertyException); [done|].
       by destruct (isinstance e NoSuchIcebergTableError). }
  2: done.
  rewrite run_ret, run_lift_bind.
  destruct (_construct_rename_table_input tn glue_table) as [input| |]; [|done..].
  rewrite run_bind, _create_glue_table_run.
  change (backend w1) with σ1.
  destruct (glue.create_table (client self) td input σ1) as [[f|[]] σ2]; [done|].
  set (w2 := record w1 σ2 _).
  rewrite run_bind, run_try.
  rewrite (drop_table_run self from_identifier fd fn) by done.
  change (backend w2) with σ2.
  destruct (glue.delete_table (client self) fd fn σ2) as [[f1|[]] σ3]; [|done].
  cbn [find_handler]. rewrite isinstance_PyException.
  set (w3 := record w2 σ3 _).
  rewrite run_bind, run_try, run_bind.
  rewrite (drop_table_run self to_identifier td tn)
    by (by eapply resolve_table_without_catalog).
  change (backend w3) with σ3.
  destruct (glue.delete_table (client self) td tn σ3) as [[f2|[]] σ4]; [|done].
  cbn [find_handler].
  destruct (decide (glue.code f2 = "EntityNotFoundException")) as [Hc|Hc].
  - rewrite (bool_decide_eq_true_2 _ Hc).
    assert (table_failure td tn f2
            = Exc NoSuchTableError ("Table does not exist: " +:+ td +:+ "." +:+ tn)
                  (Some (client_error f2))) as ->
      by (unfold table_failure; by rewrite bool_decide_eq_true_2).
    done.
  - rewrite (bool_decide_eq_false_2 _ Hc).
    assert (table_failure td tn f2 = client_error f2) as ->
      by (unfold table_failure; by rewrite bool_decide_eq_false_2).
    unfold isinstance, issubclass, client_error; cbn.
    by rewrite !bool_decide_eq_false_2 by done.
Qed.

(** The failure path of [rename_table]: the source was found and valid, the
    destination was created, and the deletion of the source failed with
    [f1]. A compensating deletion that succeeds gives a [ValueError] caused
    by the first failure; one that finds no destination gives a
    [ValueError] that asks for a manual clean-up; one that fails in any
    other way lets the client's error through. *)
Lemma rename_failed_delete_outcomes self
    (from_identifier to_identifier : IdentifierArg) fd fn td tn w
    response σ1 table table_input σ2 f1 σ3 answer σ4 :
  identifier_to_database_and_table
    (IdTuple (identifier_to_tuple_without_catalog self from_identifier))
    NoSuchTableError = Return (fd, fn) →
  identifier_to_database_and_table to_identifier ValueError = Return (td, tn) →
  glue.get_table (client self) fd fn (backend w) = (inr response, σ1) →
  (_convert_glue_to_iceberg self (glue.r_Table response)
     (record w σ1 (Requested (glue.GetTable fd fn) None))).1 = Return table →
  _construct_rename_table_input tn (glue.r_Table response) = Return table_input →
  glue.create_table (client self) td table_input σ1 = (inr tt, σ2) →
  glue.delete_table (client self) fd fn σ2 = (inl f1, σ3) →
  glue.delete_table (client self) td tn σ3 = (answer, σ4) →
  (rename_table self from_identifier to_identifier w).1 =
  match answer with
  | inr _ =>
      Raise (Exc ValueError (rolled_back_message fd fn td tn)
                 (Some (table_failure fd fn f1)))
  | inl f2 =>
      if bool_decide (glue.code f2 = "EntityNotFoundException")
      then Raise (Exc ValueError (clean_up_message fd fn td tn)
                      (Some (table_failure fd fn f1)))
      else Raise (client_error f2)
  end.
Proof.
  intros Hfrom Hto Hget Hconv Hinput Hcreate Hdel1 Hdel2.
  rewrite (rename_table_run self _ _ fd fn td tn) by done.
  rewrite Hget. cbn zeta. rewrite Hconv, Hinput, Hcreate, Hdel1, Hdel2.
  destruct answer as [f2|[]]; [|done]. cbn [fst]. by case_bool_decide.
Qed.

(** C9: a rename that is stopped before the deletion of the source, because
    the source entity is absent, because it is not a valid table of this
    format, because the destination exists already or because the
    destination namespace is absent, raises the matching error and has
    sent no [DeleteTable] request at all: the history grows by requests
    none of which is a deletion. *)
Theorem rename_early_failure_deletes_nothing self
    (from_identifier to_identifier : IdentifierArg) fd fn td tn w cls :
  identifier_to_database_and_table
    (IdTuple (identifier_to_tuple_without_catalog self from_identifier))
    NoSuchTableError = Return (fd, fn) →
  identifier_to_database_and_table to_identifier ValueError = Return (td, tn) →
  fails_before_delete self fd fn td tn w cls →
  let r := rename_table self from_identifier to_identifier w in
  raised r.1 cls ∧
  ∃ new, history r.2 = history w ++ new ∧
         Forall (λ ev, is_delete_table ev = false) new.
Proof.
  intros Hfrom Hto Hfail r. subst r.
  rewrite (rename_table_run self _ _ fd fn td tn) by done.
  destruct Hfail as [f σ Hget Hcode|response σ e Hget Hconv Hcls
                    |response σ table input f σ' Hget Hconv Hinput Hcreate Hcode
                    |response σ table input f σ' Hget Hconv Hinput Hcreate Hcode];
    rewrite Hget; cbn zeta.
  - split.
    + eexists; split; [reflexivity|].
      unfold table_failure. by rewrite bool_decide_eq_true_2.
    + eexists; split; [reflexivity|]. by repeat constructor.
  - rewrite Hconv. split.
    + eexists; split; [reflexivity|].
      unfold validation_failure, isinstance.
      destruct Hcls as [-> | ->]; by cbn.
    + eexists; split; [reflexivity|]. by repeat constructor.
  - rewrite Hconv, Hinput, Hcreate. split.
    + eexists; split; [reflexivity|].
      unfold create_failure. by rewrite bool_decide_eq_true_2.
    + eexists; split; [cbn; by rewrite <- app_assoc|]. by repeat constructor.
  - rewrite Hconv, Hinput, Hcreate. split.
    + eexists; split; [reflexivity|].
      unfold create_failure. rewrite Hcode. by cbn.
    + eexists; split; [cbn; by rewrite <- app_assoc|]. by repeat constructor.
Qed.

(** ** Creation *)

Lemma load_table_history self (identifier : IdentifierArg) w :
  ∃ rest, history (load_table self identifier w).2 = history w ++ rest.
Proof.
  unfold load_table. cbn zeta. rewrite run_lift_bind.
  destruct (identifier_to_database_and_table _ _) as [[db n]| |];
    [|by exists []; rewrite app_nil_r..].
  rewrite run_bind, run_try. unfold glue_get_table, request.
  destruct (glue.get_table (client self) db n (backend w)) as [[f|response] σ].
  - cbn [find_handler]. destruct (isinstance _ _); by eexists.
  - pose proof (convert_world self (glue.r_Table response)
                  (record w σ (Requested (glue.GetTable db n) None))) as Hw.
    rewrite Hw. by eexists.
Qed.

(** C10: [create_table] writes the metadata file and only then asks the
    metastore to register the entity: in the history the write comes right
    before the [CreateTable] request. When that request fails, the call
    ends there with the translated error ([TableAlreadyExistsError] on a
    conflict, [NoSuchNamespaceError] on a missing namespace) and the file
    written is still in the content store. *)
Theorem create_table_writes_before_registering self (identifier : IdentifierArg)
    (schema : Schema) (location : option string) (partition_spec : PartitionSpec)
    (sort_order : SortOrder) (props : Properties) w
    db tbl loc w1 mloc w2 answer σ :
  identifier_to_database_and_table identifier ValueError = Return (db, tbl) →
  _resolve_table_location self location db tbl w = (Return loc, w1) →
  _get_metadata_location loc w1 = (Return mloc, w2) →
  let md := new_table_metadata loc schema partition_spec sort_order props in
  let table_input : TableInput := _construct_create_table_input tbl mloc props in
  glue.create_table (client self) db table_input (backend w2) = (answer, σ) →
  let r := create_table self identifier schema location partition_spec sort_order
                        props w in
  match answer with
  | inl f =>
      r.1 = Raise (create_failure db tbl f) ∧
      (glue.code f = "AlreadyExistsException" → raised r.1 TableAlreadyExistsError) ∧
      (glue.code f = "EntityNotFoundException" → raised r.1 NoSuchNamespaceError) ∧
      history r.2 = history w2 ++
        [Written mloc; Requested (glue.CreateTable db table_input) (Some f)] ∧
      files r.2 !! mloc = Some md
  | inr _ =>
      ∃ rest, history r.2 = history w2 ++
        Written mloc :: Requested (glue.CreateTable db table_input) None :: rest
  end.
Proof.
  intros Hid Hloc Hmloc md table_input Hcreate r.
  set (w3 := {| backend := backend w2; files := <[mloc := md]> (files w2);
                entropy := entropy w2; history := history w2 ++ [Written mloc] |}).
  assert (r = match answer with
              | inl f =>
                  (Raise (create_failure db tbl f),
                   record w3 σ (Requested (glue.CreateTable db table_input) (Some f)))
              | inr _ =>
                  load_table self identifier
                    (record w3 σ (Requested (glue.CreateTable db table_input) None))
              end) as ->.
  { subst r. unfold create_table.
    rewrite Hid, run_lift_bind. cbn beta iota.
    rewrite run_bind, Hloc, run_bind, Hmloc. cbn zeta.
    rewrite run_bind. unfold _write_metadata at 1. cbn beta iota.
    rewrite run_lift_bind. cbn beta iota.
    rewrite run_bind, _create_glue_table_run. cbn [backend].
    fold md. fold table_input. rewrite Hcreate.
    by destruct answer as [f|[]]. }
  destruct answer as [f|[]].
  - cbn. split; [done|]. repeat split.
    + intros Hc. eexists; split; [reflexivity|].
      unfold create_failure. by rewrite bool_decide_eq_true_2.
    + intros Hc. eexists; split; [reflexivity|].
      unfold create_failure. rewrite Hc. by cbn.
    + by rewrite <- app_assoc.
    + by rewrite lookup_insert_eq.
  - match goal with |- context [load_table self identifier ?w'] =>
      destruct (load_table_history self identifier w') as [rest Hrest] end.
    exists rest. rewrite Hrest. cbn. by rewrite <- !app_assoc.
Qed.

(** ** Listing *)

(** A token the loop carries is absent or non-empty when it is sent. *)
Lemma sent_token (token : option string) :
  (token = None ∨ ∃ t, token = Some t ∧ t ≠ "") →
  (if negb (truthy token) then None else token) = token.
Proof.
  intros [->|(t & -> & Ht)]; [done|].
  apply truthy_str_ne in Ht. unfold truthy, truthy_option. by rewrite Ht.
Qed.

Lemma list_tables_loop_paged self db pages :
  ∀ fuel token σ' table_list w,
    tables_paged self db token (backend w) pages σ' →
    (token = None ∨ ∃ t, token = Some t ∧ t ≠ "") →
    (length pages ≤ fuel)%nat →
    ∃ w', list_tables_loop fuel self db token table_list w
          = (Return (table_list ++ concat pages), w') ∧ backend w' = σ'.
Proof.
  induction pages as [|page pages IH]; intros fuel token σ' table_list w Hp Htok Hfuel.
  { inversion Hp. }
  destruct fuel as [|fuel]; [cbn in Hfuel; lia|].
  cbn [list_tables_loop]. rewrite run_bind.
  assert ((if negb (truthy token) then glue_get_tables self db None
           else glue_get_tables self db token) = glue_get_tables self db token) as ->.
  { destruct Htok as [->|(t & -> & Ht)]; [done|].
    apply truthy_str_ne in Ht. unfold truthy at 1, truthy_option. by rewrite Ht. }
  unfold glue_get_tables, request.
  inversion Hp as [? ? ? next ? Hget Hnext|? ? ? next σ1 ? ? Hget Hnext Hrest]; subst.
  - rewrite Hget. cbn. rewrite Hnext. cbn. rewrite app_nil_r.
    eexists; split; reflexivity.
  - rewrite Hget. cbn.
    assert (truthy (Some next) = true) as ->
      by (apply truthy_str_ne in Hnext; unfold truthy, truthy_option; by rewrite Hnext).
    cbn [negb].
    edestruct (IH fuel (Some next) σ' (table_list ++ page)
                 (record w σ1 (Requested (glue.GetTables db token) None)))
      as (w' & Hrun & Hb); [done|right; by eexists|cbn in Hfuel; lia|].
    rewrite Hrun. exists w'. split; [|done]. by rewrite <- app_assoc.
Qed.

Lemma list_namespaces_loop_paged self pages :
  ∀ fuel token σ' database_list w,
    databases_paged self token (backend w) pages σ' →
    (token = None ∨ ∃ t, token = Some t ∧ t ≠ "") →
    (length pages ≤ fuel)%nat →
    ∃ w', list_namespaces_loop fuel self token database_list w
          = (Return (database_list ++ concat pages), w') ∧ backend w' = σ'.
Proof.
  induction pages as [|page pages IH];
    intros fuel token σ' database_list w Hp Htok Hfuel.
  { inversion Hp. }
  destruct fuel as [|fuel]; [cbn in Hfuel; lia|].
  cbn [list_namespaces_loop]. rewrite run_bind.
  assert ((if negb (truthy token) then glue_get_databases self None
           else glue_get_databases self token) = glue_get_databases self token) as ->.
  { destruct Htok as [->|(t & -> & Ht)]; [done|].
    apply truthy_str_ne in Ht. unfold truthy at 1, truthy_option. by rewrite Ht. }
  unfold glue_get_databases, request.
  inversion Hp as [? ? ? next ? Hget Hnext|? ? ? next σ1 ? ? Hget Hnext Hrest]; subst.
  - rewrite Hget. cbn. rewrite Hnext. cbn. rewrite app_nil_r.
    eexists; split; reflexivity.
  - rewrite Hget. cbn.
    assert (truthy (Some next) = true) as ->
      by (apply truthy_str_ne in Hnext; unfold truthy, truthy_option; by rewrite Hnext).
    cbn [negb].
    edestruct (IH fuel (Some next) σ' (database_list ++ page)
                 (record w σ1 (Requested (glue.GetDatabases token) None)))
      as (w' & Hrun & Hb); [done|right; by eexists|cbn in Hfuel; lia|].
    rewrite Hrun. exists w'. split; [|done]. by rewrite <- app_assoc.
Qed.

(** C6: when the service serves a result set in pages linked by continuation
    tokens (one page, possibly empty, or any number of them), [list_tables]
    and [list_namespaces], given room for that many requests, return one
    identifier per entry of the concatenation of the pages, in that order.
    Both send one more request first, whose answer they do not use. *)
Theorem listing_drains_all_pages fuel self :
  (∀ (namespace : IdentifierArg) db w first σ1 pages σ2,
     identifier_to_database namespace NoSuchNamespaceError = Return db →
     glue.get_tables (client self) db None (backend w) = (inr first, σ1) →
     tables_paged self db None σ1 pages σ2 →
     (length pages ≤ fuel)%nat →
     ∃ w', list_tables fuel self namespace w
           = (Return ((λ table, [db; Name table]) <$> concat pages), w')
           ∧ backend w' = σ2) ∧
  (∀ (namespace : IdentifierArg) w first σ1 pages σ2,
     truthy namespace = false →
     glue.get_databases (client self) None (backend w) = (inr first, σ1) →
     databases_paged self None σ1 pages σ2 →
     (length pages ≤ fuel)%nat →
     ∃ w', list_namespaces fuel self namespace w
           = (Return ((λ database, identifier_to_tuple (IdStr (db_Name database)))
                        <$> concat pages), w')
           ∧ backend w' = σ2).
Proof.
  split.
  - intros namespace db w first σ1 pages σ2 Hns Hfirst Hp Hfuel.
    unfold list_tables. rewrite Hns, run_lift_bind. cbn zeta.
    rewrite run_bind, run_try, run_bind.
    unfold glue_get_tables at 1, request. rewrite Hfirst.
    edestruct (list_tables_loop_paged self db pages fuel None σ2 []
                 (record w σ1 (Requested (glue.GetTables db None) None)))
      as (w' & Hrun & Hb); [done|by left|done|].
    rewrite Hrun. exists w'. by split.
  - intros namespace w first σ1 pages σ2 Hns Hfirst Hp Hfuel.
    unfold list_namespaces. rewrite Hns. cbn zeta.
    rewrite run_bind. unfold glue_get_databases at 1, request. rewrite Hfirst.
    rewrite run_bind.
    edestruct (list_namespaces_loop_paged self pages fuel None σ2 []
                 (record w σ1 (Requested (glue.GetDatabases None) None)))
      as (w' & Hrun & Hb); [done|by left|done|].
    rewrite Hrun. exists w'. by split.
Qed.

(** C8: asked for the namespaces under a non-empty namespace,
    [list_namespaces] returns the empty list at once, without a request and
    without an error, however many pages it would be allowed to fetch; with
    an empty argument its first act is a [GetDatabases] request. *)
Theorem list_namespaces_of_a_namespace fuel self (namespace : IdentifierArg) w :
  if truthy namespace
  then list_namespaces fuel self namespace w = (Return [], w)
  else ∃ failure rest,
         history (list_namespaces fuel self namespace w).2
         = history w ++ Requested (glue.GetDatabases None) failure :: rest.
Proof.
  unfold list_namespaces. destruct (truthy namespace); [done|].
  cbn zeta. rewrite run_bind. unfold glue_get_databases at 1, request.
  destruct (glue.get_databases (client self) None (backend w)) as [[f|first] σ1].
  { by exists (Some f), []. }
  exists None. rewrite run_bind.
  assert (∀ token database_list w1,
            ∃ rest, history (list_namespaces_loop fuel self token database_list w1).2
                    = history w1 ++ rest) as Hloop.
  { induction fuel as [|fuel IH]; intros token database_list w1.
    - exists []. by rewrite app_nil_r.
    - cbn [list_namespaces_loop]. rewrite run_bind.
      assert (∃ tok, (if negb (truthy token) then glue_get_databases self None
                      else glue_get_databases self token)
                     = glue_get_databases self tok) as [tok ->]
        by (destruct (negb (truthy token)); by eexists).
      unfold glue_get_databases, request.
      destruct (glue.get_databases (client self) tok (backend w1)) as [[f|response] σ].
      + by eexists.
      + cbn beta iota zeta.
        destruct (negb (truthy (glue.r_DatabasesNextToken response))).
        * by eexists.
        * destruct (IH (glue.r_DatabasesNextToken response)
                       (database_list ++ glue.r_DatabaseList response)
                       (record w1 σ (Requested (glue.GetDatabases tok) None)))
            as [rest Hrest].
          rewrite Hrest. cbn. rewrite <- app_assoc. by eexists. }
  destruct (Hloop None [] (record w σ1 (Requested (glue.GetDatabases None) None)))
    as [rest Hrest].
  exists rest.
  destruct (list_namespaces_loop fuel self None [] _) as [[database_list|e|] w'];
    cbn in Hrest |- *; rewrite Hrest; by rewrite <- app_assoc.
Qed.

(** ** Dropping a namespace *)

Lemma list_tables_loop_history self db fuel :
  ∀ token table_list w,
    ∃ asked, history (list_tables_loop fuel self db token table_list w).2
             = history w ++ asked
             ∧ Forall (λ ev, is_delete_database ev = false) asked.
Proof.
  induction fuel as [|fuel IH]; intros token table_list w.
  - exists []. by rewrite app_nil_r.
  - cbn [list_tables_loop]. rewrite run_bind.
    assert (∃ tok, (if negb (truthy token) then glue_get_tables self db None
                    else glue_get_tables self db token)
                   = glue_get_tables self db tok) as [tok ->]
      by (destruct (negb (truthy token)); by eexists).
    unfold glue_get_tables, request.
    destruct (glue.get_tables (client self) db tok (backend w)) as [[f|response] σ].
    + eexists; split; [reflexivity|]. by repeat constructor.
    + cbn beta iota zeta.
      destruct (negb (truthy (glue.r_NextToken response))).
      * eexists; split; [reflexivity|]. by repeat constructor.
      * destruct (IH (glue.r_NextToken response)
                     (table_list ++ glue.r_TableList response)
                     (record w σ (Requested (glue.GetTables db tok) None)))
          as (asked & Hasked & Hnone).
        rewrite Hasked. cbn. rewrite <- app_assoc.
        eexists; split; [reflexivity|]. by constructor.
Qed.

(** [list_tables] asks for tables and for nothing else. *)
Lemma list_tables_history fuel self (namespace : IdentifierArg) w :
  ∃ asked, history (list_tables fuel self namespace w).2 = history w ++ asked
           ∧ Forall (λ ev, is_delete_database ev = false) asked.
Proof.
  unfold list_tables. rewrite run_lift_bind.
  destruct (identifier_to_database namespace NoSuchNamespaceError) as [db| |];
    [|by exists []; rewrite app_nil_r..].
  cbn zeta. rewrite run_bind, run_try, run_bind.
  unfold glue_get_tables at 1, request.
  destruct (glue.get_tables (client self) db None (backend w)) as [[f|first] σ1].
  { cbn [find_handler]. destruct (isinstance _ _);
      (eexists; split; [reflexivity|]; by repeat constructor). }
  destruct (list_tables_loop_history self db fuel None []
              (record w σ1 (Requested (glue.GetTables db None) None)))
    as (asked & Hasked & Hnone).
  exists (Requested (glue.GetTables db None) None :: asked).
  split; [|by constructor].
  destruct (list_tables_loop fuel self db None [] _) as [[table_list|e|] w'];
    cbn in Hasked |- *; rewrite <- app_assoc in Hasked; cbn in Hasked.
  - done.
  - by destruct (bool_decide (exc_class e = EntityNotFoundException)).
  - done.
Qed.

(** A namespace the metastore does not know: the listing fails with
    [NoSuchNamespaceError] after its first request. *)
Lemma list_tables_missing_namespace fuel self (namespace : IdentifierArg) db w f σ :
  identifier_to_database namespace NoSuchNamespaceError = Return db →
  glue.get_tables (client self) db None (backend w) = (inl f, σ) →
  glue.code f = "EntityNotFoundException" →
  list_tables fuel self namespace w
  = (Raise (Exc NoSuchNamespaceError ("Database does not exist: " +:+ db)
                (Some (client_error f))),
     record w σ (Requested (glue.GetTables db None) (Some f))).
Proof.
  intros Hns Hget Hcode. unfold list_tables. rewrite Hns, run_lift_bind.
  cbn zeta. rewrite run_bind, run_try, run_bind.
  unfold glue_get_tables at 1, request. rewrite Hget.
  cbn [find_handler]. unfold EntityNotFoundException.
  rewrite isinstance_client_error. by rewrite bool_decide_eq_true_2.
Qed.

(** C7: [drop_namespace] lists the tables of the namespace first, and the
    listing deletes nothing. A namespace unknown to the metastore makes the
    listing, and with it the drop, fail with [NoSuchNamespaceError]. When
    the listing returns at least one table, the drop fails with
    [NamespaceNotEmptyError] in the world the listing left, so no
    [DeleteDatabase] request was sent; only when it returns no table is the
    [DeleteDatabase] request sent. *)
Theorem drop_namespace_protocol fuel self (namespace : IdentifierArg) db w :
  identifier_to_database namespace NoSuchNamespaceError = Return db →
  let listing := list_tables fuel self (IdStr db) w in
  let r := drop_namespace fuel self namespace w in
  (∃ asked, history listing.2 = history w ++ asked
            ∧ Forall (λ ev, is_delete_database ev = false) asked) ∧
  (∀ f σ, identifier_to_database (IdStr db) NoSuchNamespaceError = Return db →
          glue.get_tables (client self) db None (backend w) = (inl f, σ) →
          glue.code f = "EntityNotFoundException" →
          raised r.1 NoSuchNamespaceError ∧ r.2 = listing.2) ∧
  match listing.1 with
  | Return [] => r = glue_delete_database self db listing.2
  | Return (_ :: _) => raised r.1 NamespaceNotEmptyError ∧ r.2 = listing.2
  | Raise e =>
      r.2 = listing.2 ∧
      if isinstance e NoSuchNamespaceError
      then raised r.1 NoSuchNamespaceError else r.1 = Raise e
  | Diverged => r = (Diverged, listing.2)
  end.
Proof.
  intros Hns listing r.
  assert (r = match listing with
              | (Return [], w') => glue_delete_database self db w'
              | (Return (_ :: _), w') =>
                  (Raise (Exc NamespaceNotEmptyError
                            ("Database " +:+ db +:+ " is not empty") None), w')
              | (Raise e, w') =>
                  (Raise (if isinstance e NoSuchNamespaceError
                          then Exc NoSuchNamespaceError
                                 ("Database does not exist: " +:+ db) (Some e)
                          else e), w')
              | (Diverged, w') => (Diverged, w')
              end) as Hr.
  { subst r listing. unfold drop_namespace.
    rewrite Hns, run_lift_bind, run_bind, run_try.
    destruct (list_tables fuel self (IdStr db) w) as [[[|table tables]|e|] w'];
      try done.
    cbn [find_handler]. by destruct (isinstance e NoSuchNamespaceError). }
  split; [apply list_tables_history|]. split.
  - intros f σ Hdb Hget Hcode. rewrite Hr. subst listing.
    rewrite (list_tables_missing_namespace fuel self (IdStr db) db w f σ) by done.
    cbn. split; [|done]. by eexists.
  - rewrite Hr. destruct listing as [[[|table tables]|e|] w']; cbn [fst snd]; try done.
    + split; [|done]. by eexists.
    + split; [done|]. destruct (isinstance e NoSuchNamespaceError); [|done].
      by eexists.
Qed.

(** ** Namespace properties *)

(** [load_namespace_properties] sends at most a [GetDatabase] request. *)
Lemma load_namespace_properties_history self (namespace : IdentifierArg) w :
  ∃ asked, history (load_namespace_properties self namespace w).2 = history w ++ asked
           ∧ Forall (λ ev, is_update_database ev = false) asked.
Proof.
  unfold load_namespace_properties. rewrite run_lift_bind.
  destruct (identifier_to_database namespace NoSuchNamespaceError) as [db| |];
    [|by exists []; rewrite app_nil_r..].
  rewrite run_bind, run_try. unfold glue_get_database, request.
  destruct (glue.get_database (client self) db (backend w)) as [[f|response] σ].
  - cbn [find_handler].
    destruct (isinstance _ EntityNotFoundException);
      [|destruct (isinstance _ InvalidInputException)];
      (eexists; split; [reflexivity|]; by repeat constructor).
  - eexists; split; [reflexivity|]. by repeat constructor.
Qed.

(** The reconciliation pass refuses a key that is both removed and
    updated. *)
Lemma overlap_is_refused (current_properties : Properties) (removals : gset string)
    (updates : Properties) (key : string) :
  key ∈ removals → is_Some (updates !! key) →
  raised (_get_updated_props_and_update_summary current_properties (Some removals)
                                                updates) ValueError.
Proof.
  intros Hrem Hupd. unfold _get_updated_props_and_update_summary. cbn.
  rewrite bool_decide_eq_true_2; [by eexists|].
  apply elem_of_dom in Hupd. set_solver.
Qed.

(** C5: when a key is both in [removals] and in [updates],
    [update_namespace_properties] loads the properties of the namespace and
    stops: the world it leaves is the one the load left, no
    [UpdateDatabase] request is in the history, and, the namespace being
    there to be loaded, the error is the [ValueError] of the overlap (if
    the load itself fails, its error is the outcome). *)
Theorem update_with_overlap_updates_nothing self (namespace : IdentifierArg)
    (removals : gset string) (updates : Properties) (key : string) w :
  key ∈ removals → is_Some (updates !! key) →
  let loaded := load_namespace_properties self namespace w in
  let r := update_namespace_properties self namespace (Some removals) updates w in
  r.2 = loaded.2 ∧
  (∃ asked, history r.2 = history w ++ asked
            ∧ Forall (λ ev, is_update_database ev = false) asked) ∧
  match loaded.1 with
  | Return _ => raised r.1 ValueError
  | Raise e => r.1 = Raise e
  | Diverged => r.1 = Diverged
  end.
Proof.
  intros Hrem Hupd loaded r.
  assert (r = match loaded with
              | (Return current_properties, w') =>
                  (match _get_updated_props_and_update_summary
                           current_properties (Some removals) updates with
                   | Return _ => Diverged
                   | Raise e => Raise e
                   | Diverged => Diverged
                   end, w')
              | (Raise e, w') => (Raise e, w')
              | (Diverged, w') => (Diverged, w')
              end) as Hr.
  { subst r loaded. unfold update_namespace_properties. rewrite run_bind.
    destruct (load_namespace_properties self namespace w)
      as [[current_properties|e|] w']; try done.
    rewrite run_lift_bind.
    destruct (overlap_is_refused current_properties removals updates key Hrem Hupd)
      as (e & -> & _). done. }
  assert (r.2 = loaded.2) as Hw.
  { rewrite Hr. by destruct loaded as [[current_properties|e|] w']. }
  split; [done|]. split.
  - rewrite Hw. apply load_namespace_properties_history.
  - rewrite Hr. destruct loaded as [[current_properties|e|] w']; cbn [fst snd]; try done.
    destruct (overlap_is_refused current_properties removals updates key Hrem Hupd)
      as (e & -> & Hcls). by exists e.
Qed.

(** C2 (amended): on an entity with a database name and a non-empty
    properties bag, validation fails with [NoSuchPropertyException] when the
    type marker is absent, and when the marker matches but the metadata
    location is absent; it fails with [NoSuchIcebergTableError] when the
    marker is present and does not match [ICEBERG] up to case, whatever else
    the bag holds; when both are present and the marker matches, it passes
    and the table read from the content store carries the stored metadata
    location. No request is made and nothing is written. *)
Theorem convert_validation self (glue_table : TableDef) w
    (database_name : string) (props : Properties) :
  DatabaseName glue_table = Some database_name →
  database_name ≠ "" →
  Parameters glue_table = Some props →
  props ≠ ∅ →
  let r := _convert_glue_to_iceberg self glue_table w in
  r.2 = w ∧
  (props !! TABLE_TYPE = None → raised r.1 NoSuchPropertyException) ∧
  (∀ t, props !! TABLE_TYPE = Some t → lower t ≠ ICEBERG →
        raised r.1 NoSuchIcebergTableError) ∧
  (∀ t, props !! TABLE_TYPE = Some t → lower t = ICEBERG →
        props !! METADATA_LOCATION = None →
        raised r.1 NoSuchPropertyException) ∧
  (∀ t location md,
        props !! TABLE_TYPE = Some t → lower t = ICEBERG →
        props !! METADATA_LOCATION = Some location →
        files w !! location = Some md →
        ∃ table, r.1 = Return table ∧ metadata_location table = location ∧
                 metadata table = md).
Proof.
  intros Hdb Hdbt Hp Hpt r.
  destruct (convert_run self glue_table w database_name props) as (o & Hrun & Ho);
    try done.
  subst r. rewrite Hrun; cbn. split; [done|]. repeat split.
  - intros Ht. by rewrite Ht in Ho.
  - intros t Ht Hne. rewrite Ht in Ho. by rewrite decide_False in Ho.
  - intros t Ht Heq Hl. rewrite Ht, Hl in Ho. by rewrite decide_True in Ho.
  - intros t location md Ht Heq Hl Hf. rewrite Ht, Hl, Hf in Ho.
    rewrite decide_True in Ho by done. subst o. by eexists.
Qed.
End CatalogFacts.

(** * Further properties: tables *)

Section TableFacts.
Context `{CatalogConstants} `{Collaborators} {Σ : Type}.
Implicit Types (self : GlueCatalog (Σ := Σ)) (w : World Σ).

Abbreviation TableDef := (TableTypeDef StorageDescriptorTypeDef).
Abbreviation TableInput := (TableInputTypeDef StorageDescriptorTypeDef).

(** ** The type marker that is stamped is a marker that is accepted *)

Lemma ascii_lower_upper (c : ascii) : ascii_lower (ascii_upper c) = ascii_lower c.
Proof. by destruct c as [[] [] [] [] [] [] [] []]. Qed.

Lemma lower_upper (s : string) : lower (upper s) = lower s.
Proof.
  induction s as [|c s IH]; [done|].
  cbn [upper lower]. by rewrite ascii_lower_upper, IH.
Qed.

(** X1: The entity that [create_table] registers is a valid table of this format:
    when the marker constant is in lower case and the two reserved keys
    differ, an entity that carries the parameters of
    [_construct_create_table_input] and a database name passes
    [_convert_glue_to_iceberg] and yields the metadata location that was
    stamped. *)
Theorem created_entity_is_valid self (glue_table : TableDef) w
    (table_name metadata_location database_name : string) (props : Properties)
    (md : TableMetadata) :
  TABLE_TYPE ≠ METADATA_LOCATION →
  lower ICEBERG = ICEBERG →
  Parameters glue_table
  = in_Parameters (_construct_create_table_input (StorageDescriptorTypeDef := StorageDescriptorTypeDef)
                     table_name metadata_location props) →
  DatabaseName glue_table = Some database_name →
  database_name ≠ "" →
  files w !! metadata_location = Some md →
  _convert_glue_to_iceberg self glue_table w
  = (Return {| identifier := [name self; database_name; Name glue_table];
               metadata := md;
               metadata_location := metadata_location;
               io := _load_file_io self (metadata_properties md) metadata_location;
               catalog := self |}, w).
Proof.
  intros Hkeys Hlow Hp Hdb Hne Hfile. cbn in Hp.
  destruct (convert_run self glue_table w database_name
              (_construct_parameters metadata_location)) as (o & Hrun & Ho); try done.
  { unfold _construct_parameters. apply insert_non_empty. }
  rewrite Hrun. f_equal.
  unfold _construct_parameters in Ho.
  rewrite lookup_insert_ne, lookup_insert_eq in Ho by done.
  rewrite decide_True in Ho by (by rewrite lower_upper).
  by rewrite lookup_insert_eq, Hfile in Ho.
Qed.

(** ** Entities without a properties bag *)

(** X2: An entity that has no properties bag or no database name fails
    validation with [KeyError], one whose bag or database name is empty with
    [AssertionError]: neither of the two errors of the format is raised, and
    the world is untouched. *)
Theorem convert_without_bag self (glue_table : TableDef) w :
  let r := _convert_glue_to_iceberg self glue_table w in
  r.2 = w ∧
  (Parameters glue_table = None ∨ DatabaseName glue_table = None →
   raised r.1 KeyError) ∧
  (∀ props database_name,
     Parameters glue_table = Some props →
     DatabaseName glue_table = Some database_name →
     props = ∅ ∨ database_name = "" →
     raised r.1 AssertionError).
Proof.
  intros r. split; [apply convert_world|]. subst r.
  unfold _convert_glue_to_iceberg. split.
  - intros [Hp|Hd].
    + rewrite Hp. by eexists.
    + rewrite Hd. destruct (Parameters glue_table); by eexists.
  - intros props db Hp Hd Hempty. rewrite Hp, Hd.
    repeat (rewrite run_lift_bind; cbn).
    destruct (truthy db) eqn:Hdb; cbn.
    + destruct Hempty as [->| ->]; [|done].
      repeat (rewrite run_lift_bind; cbn).
      assert (truthy (∅ : Properties) = false) as ->
        by (unfold truthy, truthy_dict; by rewrite bool_decide_eq_false_2 by auto).
      by eexists.
    + by eexists.
Qed.

(** ** [load_table] *)

Lemma load_table_outcome_aux self (identifier : IdentifierArg) db n w :
  identifier_to_database_and_table
    (IdTuple (identifier_to_tuple_without_catalog self identifier)) NoSuchTableError
  = Return (db, n) →
  (load_table self identifier w).1 =
  match glue.get_table (client self) db n (backend w) with
  | (inl f, σ) => Raise (table_failure db n f)
  | (inr response, σ) =>
      (_convert_glue_to_iceberg self (glue.r_Table response)
         (record w σ (Requested (glue.GetTable db n) None))).1
  end.
Proof.
  intros Hr. unfold load_table. cbn zeta. rewrite Hr, run_lift_bind. cbn beta iota.
  rewrite run_bind, run_try. unfold glue_get_table, request.
  destruct (glue.get_table (client self) db n (backend w)) as [[f|response] σ].
  - cbn [find_handler]. unfold EntityNotFoundException, table_failure.
    rewrite isinstance_client_error. by case_bool_decide.
  - done.
Qed.

(** X3: [load_table], once the identifier resolves, sends one [GetTable] request
    and nothing else. A not-found answer is raised as [NoSuchTableError]
    caused by the client's error, any other failure as the client raised it;
    on an answer the outcome is that of the validation of the entity. *)
Theorem load_table_outcome self (identifier : IdentifierArg) db n w :
  identifier_to_database_and_table
    (IdTuple (identifier_to_tuple_without_catalog self identifier)) NoSuchTableError
  = Return (db, n) →
  match glue.get_table (client self) db n (backend w) with
  | (inl f, σ) =>
      load_table self identifier w
      = (Raise (if bool_decide (glue.code f = "EntityNotFoundException")
                then Exc NoSuchTableError
                       ("Table does not exist: " +:+ db +:+ "." +:+ n)
                       (Some (client_error f))
                else client_error f),
         record w σ (Requested (glue.GetTable db n) (Some f)))
  | (inr response, σ) =>
      let w1 := record w σ (Requested (glue.GetTable db n) None) in
      load_table self identifier w
      = ((_convert_glue_to_iceberg self (glue.r_Table response) w1).1, w1)
  end.
Proof.
  intros Hr. unfold load_table. cbn zeta. rewrite Hr, run_lift_bind. cbn beta iota.
  rewrite run_bind, run_try. unfold glue_get_table, request.
  destruct (glue.get_table (client self) db n (backend w)) as [[f|response] σ].
  - cbn [find_handler]. unfold EntityNotFoundException.
    rewrite isinstance_client_error. by case_bool_decide.
  - cbn zeta.
    pose proof (convert_world self (glue.r_Table response)
                  (record w σ (Requested (glue.GetTable db n) None))) as Hw.
    destruct (_convert_glue_to_iceberg self (glue.r_Table response) _) as [o w'].
    cbn in Hw. by subst w'.
Qed.

(** ** [drop_table] *)

(** X4: [drop_table] returns only when the identifier resolved and the
    [DeleteTable] request it sent succeeded: a failed deletion is never
    swallowed. *)
Theorem drop_table_returns_iff_deleted self (identifier : IdentifierArg) w :
  (drop_table self identifier w).1 = Return tt ↔
  ∃ db n σ,
    identifier_to_database_and_table
      (IdTuple (identifier_to_tuple_without_catalog self identifier)) NoSuchTableError
    = Return (db, n) ∧
    glue.delete_table (client self) db n (backend w) = (inr tt, σ) ∧
    (drop_table self identifier w).2
    = record w σ (Requested (glue.DeleteTable db n) None).
Proof.
  split.
  - intros Hret.
    destruct (identifier_to_database_and_table
                (IdTuple (identifier_to_tuple_without_catalog self identifier))
                NoSuchTableError) as [[db n]|e|] eqn:Hr.
    + rewrite (drop_table_run self identifier db n) in * by done.
      destruct (glue.delete_table (client self) db n (backend w)) as [[f|[]] σ]
        eqn:Hdel; [done|].
      by exists db, n, σ.
    + unfold drop_table in Hret. cbn zeta in Hret.
      by rewrite Hr, run_lift_bind in Hret.
    + unfold drop_table in Hret. cbn zeta in Hret.
      by rewrite Hr, run_lift_bind in Hret.
  - intros (db & n & σ & Hr & Hdel & _).
    rewrite (drop_table_run self identifier db n) by done. by rewrite Hdel.
Qed.
(** ** [rename_table]: the successful path *)

(** The entity that is submitted for the destination. *)
Lemma rename_input_built (to_table_name : string) (glue_table : TableDef) t :
  TableType glue_table = Some t → t ≠ "" →
  _construct_rename_table_input to_table_name glue_table
  = Return {| in_Name := to_table_name;
              in_TableType := Some t;
              in_Owner := Owner glue_table;
              in_Parameters := Parameters glue_table;
              in_StorageDescriptor := StorageDescriptor glue_table;
              in_Description := Description glue_table |}.
Proof.
  intros Ht Hne. unfold _construct_rename_table_input. rewrite Ht. cbn.
  apply truthy_str_ne in Hne. by rewrite Hne.
Qed.

(** X5: When the source is found and valid, the destination is created and the
    source is deleted, [rename_table] has sent exactly three requests, in
    this order: [GetTable] on the source, [CreateTable] of the source's
    entity under the new name, [DeleteTable] on the source; what it returns
    is what [load_table] of the destination returns after them. *)
Theorem rename_success_choreography self
    (from_identifier to_identifier : IdentifierArg) fd fn td tn w
    response σ1 table t σ2 σ3 :
  identifier_to_database_and_table
    (IdTuple (identifier_to_tuple_without_catalog self from_identifier))
    NoSuchTableError = Return (fd, fn) →
  identifier_to_database_and_table to_identifier ValueError = Return (td, tn) →
  glue.get_table (client self) fd fn (backend w) = (inr response, σ1) →
  let glue_table := glue.r_Table response in
  (_convert_glue_to_iceberg self glue_table
     (record w σ1 (Requested (glue.GetTable fd fn) None))).1 = Return table →
  TableType glue_table = Some t → t ≠ "" →
  let rename_table_input : TableInput :=
    {| in_Name := tn; in_TableType := Some t; in_Owner := Owner glue_table;
       in_Parameters := Parameters glue_table;
       in_StorageDescriptor := StorageDescriptor glue_table;
       in_Description := Description glue_table |} in
  glue.create_table (client self) td rename_table_input σ1 = (inr tt, σ2) →
  glue.delete_table (client self) fd fn σ2 = (inr tt, σ3) →
  rename_table self from_identifier to_identifier w
  = load_table self to_identifier
      {| backend := σ3; files := files w; entropy := entropy w;
         history := history w ++
           [ Requested (glue.GetTable fd fn) None;
             Requested (glue.CreateTable td rename_table_input) None;
             Requested (glue.DeleteTable fd fn) None ] |}.
Proof.
  intros Hfrom Hto Hget glue_table Hconv Ht Hne input Hcreate Hdel.
  rewrite (rename_table_run self _ _ fd fn td tn) by done.
  rewrite Hget. cbn zeta. fold glue_table. rewrite Hconv.
  rewrite (rename_input_built tn glue_table t) by done. fold input.
  rewrite Hcreate, Hdel. f_equal. unfold record; cbn. f_equal.
  by rewrite <- !app_assoc.
Qed.

(** X6: A rename keeps the metadata location: if, after the three requests of the
    successful path, the metastore answers for the destination with the
    entity that was submitted, [rename_table] returns the destination table
    with the metadata location and the metadata of the source. *)
Theorem rename_keeps_metadata_location self
    (from_identifier to_identifier : IdentifierArg) fd fn td tn w
    response σ1 source_db props marker location md t σ2 σ3 renamed σ4 :
  identifier_to_database_and_table
    (IdTuple (identifier_to_tuple_without_catalog self from_identifier))
    NoSuchTableError = Return (fd, fn) →
  identifier_to_database_and_table to_identifier ValueError = Return (td, tn) →
  td ≠ "" →
  glue.get_table (client self) fd fn (backend w) = (inr response, σ1) →
  let glue_table := glue.r_Table response in
  DatabaseName glue_table = Some source_db → source_db ≠ "" →
  Parameters glue_table = Some props →
  props !! TABLE_TYPE = Some marker → lower marker = ICEBERG →
  props !! METADATA_LOCATION = Some location →
  files w !! location = Some md →
  TableType glue_table = Some t → t ≠ "" →
  glue.create_table (client self) td
    {| in_Name := tn; in_TableType := Some t; in_Owner := Owner glue_table;
       in_Parameters := Parameters glue_table;
       in_StorageDescriptor := StorageDescriptor glue_table;
       in_Description := Description glue_table |} σ1 = (inr tt, σ2) →
  glue.delete_table (client self) fd fn σ2 = (inr tt, σ3) →
  glue.get_table (client self) td tn σ3 = (inr {| glue.r_Table := renamed |}, σ4) →
  Name renamed = tn → DatabaseName renamed = Some td →
  Parameters renamed = Parameters glue_table →
  (rename_table self from_identifier to_identifier w).1
  = Return {| identifier := [name self; td; tn];
              metadata := md;
              metadata_location := location;
              io := _load_file_io self (metadata_properties md) location;
              catalog := self |}.
Proof.
  intros Hfrom Hto Htd Hget glue_table Hdb Hdbne Hp Hmarker Hlow Hloc Hfile Ht Hne
         Hcreate Hdel Hget2 Hname Hdb2 Hp2.
  assert (props ≠ ∅) as Hprops by (intros ->; by rewrite lookup_empty in Hmarker).
  rewrite (rename_table_run self _ _ fd fn td tn) by done.
  rewrite Hget. cbn zeta. fold glue_table.
  destruct (convert_run self glue_table
              (record w σ1 (Requested (glue.GetTable fd fn) None))
              source_db props) as (o & Hrun & Ho); try done.
  rewrite Hmarker, Hloc in Ho. rewrite decide_True in Ho by done.
  cbn [files record] in Ho. rewrite Hfile in Ho. subst o. rewrite Hrun. cbn [fst].
  rewrite (rename_input_built tn glue_table t) by done.
  rewrite Hcreate, Hdel.
  pose proof (load_table_outcome_aux self to_identifier td tn) as Hload.
  rewrite Hload by (by eapply resolve_table_without_catalog).
  cbn [backend record]. rewrite Hget2. cbn [glue.r_Table fst].
  match goal with |- (_convert_glue_to_iceberg self renamed ?w').1 = _ =>
    destruct (convert_run self renamed w' td props) as (o & Hrun2 & Ho2) end;
    try done; [congruence|].
  rewrite Hmarker, Hloc in Ho2. rewrite decide_True in Ho2 by done.
  cbn [files record] in Ho2. rewrite Hfile in Ho2. subst o.
  rewrite Hrun2. cbn [fst]. by rewrite Hname.
Qed.

(** ** [rename_table]: the failure path *)

(** X7: When the deletion of the source fails, the very next request is the
    compensating [DeleteTable] on the destination, and [rename_table] raises:
    it never returns a table after a rename that is half done. A rollback
    that succeeds is reported as a [ValueError] caused by the failure of the
    first deletion, a rollback that finds no destination as a [ValueError]
    that asks for a manual clean-up. *)
Theorem rename_attempts_rollback self
    (from_identifier to_identifier : IdentifierArg) fd fn td tn w
    response σ1 table table_input σ2 f1 σ3 answer σ4 :
  identifier_to_database_and_table
    (IdTuple (identifier_to_tuple_without_catalog self from_identifier))
    NoSuchTableError = Return (fd, fn) →
  identifier_to_database_and_table to_identifier ValueError = Return (td, tn) →
  glue.get_table (client self) fd fn (backend w) = (inr response, σ1) →
  (_convert_glue_to_iceberg self (glue.r_Table response)
     (record w σ1 (Requested (glue.GetTable fd fn) None))).1 = Return table →
  _construct_rename_table_input tn (glue.r_Table response) = Return table_input →
  glue.create_table (client self) td table_input σ1 = (inr tt, σ2) →
  glue.delete_table (client self) fd fn σ2 = (inl f1, σ3) →
  glue.delete_table (client self) td tn σ3 = (answer, σ4) →
  let r := rename_table self from_identifier to_identifier w in
  (∃ e, r.1 = Raise e) ∧
  backend r.2 = σ4 ∧
  history r.2 = history w ++
    [ Requested (glue.GetTable fd fn) None;
      Requested (glue.CreateTable td table_input) None;
      Requested (glue.DeleteTable fd fn) (Some f1);
      Requested (glue.DeleteTable td tn)
                (match answer with inl f2 => Some f2 | inr _ => None end) ] ∧
  match answer with
  | inr _ =>
      r.1 = Raise (Exc ValueError (rolled_back_message fd fn td tn)
                       (Some (table_failure fd fn f1)))
  | inl f2 =>
      glue.code f2 = "EntityNotFoundException" →
      r.1 = Raise (Exc ValueError (clean_up_message fd fn td tn)
                       (Some (table_failure fd fn f1)))
  end.
Proof.
  intros Hfrom Hto Hget Hconv Hinput Hcreate Hdel1 Hdel2 r. subst r.
  rewrite (rename_table_run self _ _ fd fn td tn) by done.
  rewrite Hget. cbn zeta. rewrite Hconv, Hinput, Hcreate, Hdel1, Hdel2.
  destruct answer as [f2|[]]; cbn [fst snd].
  - split; [by eexists|]. split; [done|]. split.
    + cbn. by rewrite <- !app_assoc.
    + intros Hc. by rewrite bool_decide_eq_true_2.
  - split; [by eexists|]. split; [done|]. split; [|done].
    cbn. by rewrite <- !app_assoc.
Qed.

(** X8: Validation reads the metadata file of the source, and only the two
    errors of the format are translated: any other failure of the
    validation (an entity without a properties bag, a metadata file that is
    not in the content store) leaves [rename_table] as it was raised, after
    the one [GetTable] request; nothing is created. *)
Theorem rename_passes_other_validation_errors self
    (from_identifier to_identifier : IdentifierArg) fd fn td tn w response σ1 e :
  identifier_to_database_and_table
    (IdTuple (identifier_to_tuple_without_catalog self from_identifier))
    NoSuchTableError = Return (fd, fn) →
  identifier_to_database_and_table to_identifier ValueError = Return (td, tn) →
  glue.get_table (client self) fd fn (backend w) = (inr response, σ1) →
  (_convert_glue_to_iceberg self (glue.r_Table response)
     (record w σ1 (Requested (glue.GetTable fd fn) None))).1 = Raise e →
  exc_class e ≠ NoSuchPropertyException →
  exc_class e ≠ NoSuchIcebergTableError →
  rename_table self from_identifier to_identifier w
  = (Raise e, record w σ1 (Requested (glue.GetTable fd fn) None)).
Proof.
  intros Hfrom Hto Hget Hconv Hc1 Hc2.
  rewrite (rename_table_run self _ _ fd fn td tn) by done.
  rewrite Hget. cbn zeta. rewrite Hconv. f_equal. f_equal.
  unfold validation_failure, isinstance, issubclass.
  by rewrite !bool_decide_eq_false_2.
Qed.
End TableFacts.

(** * Further properties: namespaces *)

Section NamespaceFacts.
Context `{CatalogConstants} `{Collaborators} {Σ : Type}.
Implicit Types (self : GlueCatalog (Σ := Σ)) (w : World Σ).

Lemma resolve_database_class (namespace : IdentifierArg) (err err' : ExcClass) db :
  identifier_to_database namespace err = Return db →
  identifier_to_database namespace err' = Return db.
Proof.
  unfold identifier_to_database.
  by destruct (identifier_to_tuple namespace) as [|a [|b l]].
Qed.

(** ** The two translations *)

(** X9: What [_construct_database_input] promotes and what it passes through: the
    description and the location become the dedicated fields, the parameter
    bag holds every other key with its value and neither of the two. *)
Theorem database_input_partitions (database_name : string) (props : Properties) :
  LOCATION ≠ "Description" →
  let database_input := _construct_database_input database_name props in
  db_Name database_input = database_name ∧
  db_Description database_input = props !! "Description" ∧
  db_LocationUri database_input = props !! LOCATION ∧
  ∃ parameters,
    db_Parameters database_input = Some parameters ∧
    parameters !! "Description" = None ∧
    parameters !! LOCATION = None ∧
    ∀ k, k ≠ "Description" → k ≠ LOCATION → parameters !! k = props !! k.
Proof.
  intros Hne database_input. subst database_input.
  rewrite _construct_database_input_fields by done. cbn.
  repeat split. eexists; split; [reflexivity|]. repeat split.
  - apply map_lookup_filter_None. right. cbn. intros; tauto.
  - apply map_lookup_filter_None. right. cbn. intros; tauto.
  - intros k Hk1 Hk2. destruct (props !! k) as [v|] eqn:Ek.
    + apply map_lookup_filter_Some. split; [done|cbn; tauto].
    + apply map_lookup_filter_None. by left.
Qed.

Lemma properties_of_database_lookup (database : DatabaseTypeDef) (k : string) :
  properties_of_database database !! k =
  match db_Description database with
  | Some d =>
      if decide (k = "Description") then Some d
      else match db_LocationUri database with
           | Some uri =>
               if decide (k = "location") then Some uri
               else default ∅ (db_Parameters database) !! k
           | None => default ∅ (db_Parameters database) !! k
           end
  | None =>
      match db_LocationUri database with
      | Some uri =>
          if decide (k = "location") then Some uri
          else default ∅ (db_Parameters database) !! k
      | None => default ∅ (db_Parameters database) !! k
      end
  end.
Proof.
  unfold properties_of_database.
  destruct (db_Description database) as [d|], (db_LocationUri database) as [uri|];
    repeat case_decide; subst;
    rewrite ?lookup_insert_eq, ?lookup_insert_ne by done;
    rewrite ?lookup_insert_eq, ?lookup_insert_ne by done; done.
Qed.

(** X10: On the way back, the dedicated fields win: a description or a location on
    the entity is what the properties show under ["Description"] and
    ["location"], whatever the parameter bag holds under these keys; every
    other key is read from the bag. *)
Theorem dedicated_fields_shadow_parameters (database : DatabaseTypeDef) :
  let props := properties_of_database database in
  (∀ d, db_Description database = Some d → props !! "Description" = Some d) ∧
  (∀ uri, db_LocationUri database = Some uri → props !! "location" = Some uri) ∧
  (∀ k, k ≠ "Description" → k ≠ "location" →
        props !! k = default ∅ (db_Parameters database) !! k) ∧
  (db_Description database = None → db_LocationUri database = None →
   props = default ∅ (db_Parameters database)).
Proof.
  intros props. subst props. repeat split.
  - intros d Hd. rewrite properties_of_database_lookup, Hd. by rewrite decide_True.
  - intros uri Hu. rewrite properties_of_database_lookup, Hu.
    destruct (db_Description database); [rewrite decide_False by done|];
      by rewrite decide_True.
  - intros k Hk1 Hk2. rewrite properties_of_database_lookup.
    destruct (db_Description database), (db_LocationUri database);
      by rewrite ?decide_False by done.
  - intros Hd Hu. unfold properties_of_database. by rewrite Hd, Hu.
Qed.

Lemma round_trip_of_properties (database_name : string) (props : Properties) :
  LOCATION = "location" →
  properties_of_database (_construct_database_input database_name props) = props.
Proof.
  intros Hloc. apply map_eq. intros k.
  rewrite properties_of_database_lookup.
  rewrite _construct_database_input_fields by (rewrite Hloc; done).
  cbn [db_Description db_LocationUri db_Parameters from_option id]. rewrite Hloc.
  assert (∀ k, k ≠ "Description" → k ≠ "location" →
            filter (λ kv : string * string, kv.1 ≠ "Description" ∧ kv.1 ≠ "location")
              props !! k = props !! k) as Hother.
  { intros k' ? ?. destruct (props !! k') as [v|] eqn:Ek.
    - apply map_lookup_filter_Some. split; [done|cbn; tauto].
    - apply map_lookup_filter_None. by left. }
  assert (∀ k, k = "Description" ∨ k = "location" →
            filter (λ kv : string * string, kv.1 ≠ "Description" ∧ kv.1 ≠ "location")
              props !! k = None) as Hpromoted.
  { intros k' Hk. apply map_lookup_filter_None. right. cbn. intros; tauto. }
  destruct (decide (k = "Description")) as [->|Hk1].
  - destruct (props !! "Description") as [d|] eqn:Ed;
      rewrite ?decide_True by done; [done|].
    destruct (props !! "location") as [uri|] eqn:El;
      rewrite ?decide_False by done; by rewrite Hpromoted by (by left).
  - destruct (decide (k = "location")) as [->|Hk2].
    + destruct (props !! "Description") as [d|] eqn:Ed;
        rewrite ?decide_False by done;
        (destruct (props !! "location") as [uri|] eqn:El;
         rewrite ?decide_True by done;
         [done|by rewrite Hpromoted by (by right)]).
    + destruct (props !! "Description") as [d|] eqn:Ed,
               (props !! "location") as [uri|] eqn:El;
        rewrite ?decide_False by done; by rewrite Hother.
Qed.

(** ** [create_namespace] *)

(** X11: [create_namespace] sends one [CreateDatabase] request with the translated
    properties; a conflict is raised as [NamespaceAlreadyExistsError] caused
    by the client's error, any other failure as the client raised it. *)
Theorem create_namespace_outcome self (namespace : IdentifierArg)
    (props : Properties) db w :
  identifier_to_database namespace ValueError = Return db →
  let database_input := _construct_database_input db props in
  match glue.create_database (client self) database_input (backend w) with
  | (inr _, σ) =>
      create_namespace self namespace props w
      = (Return tt, record w σ (Requested (glue.CreateDatabase database_input) None))
  | (inl f, σ) =>
      create_namespace self namespace props w
      = (Raise (if bool_decide (glue.code f = "AlreadyExistsException")
                then Exc NamespaceAlreadyExistsError
                       ("Database " +:+ db +:+ " already exists")
                       (Some (client_error f))
                else client_error f),
         record w σ (Requested (glue.CreateDatabase database_input) (Some f)))
  end.
Proof.
  intros Hns database_input. unfold create_namespace.
  rewrite Hns, run_lift_bind, run_try. fold database_input.
  unfold glue_create_database, request.
  destruct (glue.create_database (client self) database_input (backend w))
    as [[f|[]] σ]; [|done].
  cbn [find_handler]. unfold AlreadyExistsException.
  rewrite isinstance_client_error. by case_bool_decide.
Qed.

(** ** [load_namespace_properties] *)

(** X12: [load_namespace_properties] sends one [GetDatabase] request. A not-found
    answer and an invalid-input answer are both raised as
    [NoSuchNamespaceError], any other failure as the client raised it; an
    answer is translated to properties. *)
Theorem load_namespace_properties_outcome self (namespace : IdentifierArg) db w :
  identifier_to_database namespace NoSuchNamespaceError = Return db →
  match glue.get_database (client self) db (backend w) with
  | (inr response, σ) =>
      load_namespace_properties self namespace w
      = (Return (properties_of_database (glue.r_Database response)),
         record w σ (Requested (glue.GetDatabase db) None))
  | (inl f, σ) =>
      (load_namespace_properties self namespace w).2
      = record w σ (Requested (glue.GetDatabase db) (Some f)) ∧
      (glue.code f = "EntityNotFoundException" ∨ glue.code f = "InvalidInputException" →
       ∃ msg, (load_namespace_properties self namespace w).1
              = Raise (Exc NoSuchNamespaceError msg (Some (client_error f)))) ∧
      (glue.code f ≠ "EntityNotFoundException" →
       glue.code f ≠ "InvalidInputException" →
       (load_namespace_properties self namespace w).1 = Raise (client_error f))
  end.
Proof.
  intros Hns.
  destruct (glue.get_database (client self) db (backend w)) as [[f|response] σ]
    eqn:Hget.
  - assert (load_namespace_properties self namespace w
            = (Raise (if bool_decide (glue.code f = "EntityNotFoundException")
                      then Exc NoSuchNamespaceError
                             ("Database does not exist: " +:+ db)
                             (Some (client_error f))
                      else if bool_decide (glue.code f = "InvalidInputException")
                      then Exc NoSuchNamespaceError
                             ("Invalid input for namespace " +:+ db)
                             (Some (client_error f))
                      else client_error f),
               record w σ (Requested (glue.GetDatabase db) (Some f)))) as ->.
    { unfold load_namespace_properties.
      rewrite Hns, run_lift_bind, run_bind, run_try.
      unfold glue_get_database, request. rewrite Hget.
      cbn [find_handler]. unfold EntityNotFoundException, InvalidInputException.
      rewrite !isinstance_client_error. by repeat case_bool_decide. }
    cbn [fst snd]. split; [done|]. split.
    + intros [Hc|Hc].
      * rewrite (bool_decide_eq_true_2 _ Hc). by eexists.
      * case_bool_decide; [by eexists|].
        rewrite (bool_decide_eq_true_2 _ Hc). by eexists.
    + intros Hc1 Hc2. by rewrite !bool_decide_eq_false_2.
  - unfold load_namespace_properties.
    rewrite Hns, run_lift_bind, run_bind, run_try.
    unfold glue_get_database, request. by rewrite Hget.
Qed.

(** X13: A namespace that is created and then loaded shows the properties it was
    created with, when the metastore answers with the entity that was
    submitted. *)
Theorem create_then_load_namespace self (namespace : IdentifierArg)
    (props : Properties) db w σ1 σ2 :
  LOCATION = "location" →
  identifier_to_database namespace ValueError = Return db →
  let database_input := _construct_database_input db props in
  glue.create_database (client self) database_input (backend w) = (inr tt, σ1) →
  glue.get_database (client self) db σ1
  = (inr {| glue.r_Database := database_input |}, σ2) →
  let r := (create_namespace self namespace props ≫=
            λ _, load_namespace_properties self namespace) w in
  r.1 = Return props ∧
  backend r.2 = σ2 ∧
  history r.2 = history w ++
    [ Requested (glue.CreateDatabase database_input) None;
      Requested (glue.GetDatabase db) None ].
Proof.
  intros Hloc Hns database_input Hcreate Hget r. subst r.
  rewrite run_bind. unfold create_namespace.
  rewrite Hns, run_lift_bind, run_try. fold database_input.
  unfold glue_create_database, request. rewrite Hcreate.
  unfold load_namespace_properties.
  rewrite (resolve_database_class _ _ NoSuchNamespaceError _ Hns).
  rewrite run_lift_bind, run_bind, run_try.
  unfold glue_get_database, request. cbn [backend record]. rewrite Hget.
  cbn. subst database_input. rewrite round_trip_of_properties by done.
  split; [done|]. split; [done|]. by rewrite <- app_assoc.
Qed.

(** ** [update_namespace_properties] *)

(** X14: Without an overlap, [update_namespace_properties] sends a [GetDatabase]
    and then an [UpdateDatabase] request that carries the whole reconciled
    map, translated, and returns the summary; a failure of the update is
    raised as the client raised it. The entity that is pushed reads back as
    the reconciled map. *)
Theorem update_pushes_reconciled_properties self (namespace : IdentifierArg)
    (removals : option (gset string)) (updates : Properties) db w
    response σ1 summary updated_properties answer σ2 :
  LOCATION = "location" →
  identifier_to_database namespace NoSuchNamespaceError = Return db →
  glue.get_database (client self) db (backend w) = (inr response, σ1) →
  _get_updated_props_and_update_summary
    (properties_of_database (glue.r_Database response)) removals updates
  = Return (summary, updated_properties) →
  let database_input := _construct_database_input db updated_properties in
  glue.update_database (client self) db database_input σ1 = (answer, σ2) →
  let r := update_namespace_properties self namespace removals updates w in
  properties_of_database database_input = updated_properties ∧
  backend r.2 = σ2 ∧
  history r.2 = history w ++
    [ Requested (glue.GetDatabase db) None;
      Requested (glue.UpdateDatabase db database_input)
                (match answer with inl f => Some f | inr _ => None end) ] ∧
  r.1 = match answer with
        | inr _ => Return summary
        | inl f => Raise (client_error f)
        end.
Proof.
  intros Hloc Hns Hget Hrec database_input Hupd r.
  split; [by apply round_trip_of_properties|].
  set (w1 := record w σ1 (Requested (glue.GetDatabase db) None)).
  assert (r = match answer with
              | inl f =>
                  (Raise (client_error f),
                   record w1 σ2 (Requested (glue.UpdateDatabase db database_input)
                                           (Some f)))
              | inr _ =>
                  (Return summary,
                   record w1 σ2 (Requested (glue.UpdateDatabase db database_input)
                                           None))
              end) as ->.
  { subst r. unfold update_namespace_properties. rewrite run_bind.
    unfold load_namespace_properties at 1.
    rewrite Hns, run_lift_bind, run_bind, run_try.
    unfold glue_get_database, request. rewrite Hget. cbn beta iota zeta.
    rewrite run_ret, run_lift_bind, Hrec. cbn beta iota.
    rewrite run_lift_bind, run_bind. fold database_input.
    unfold glue_update_database, request. cbn [backend record]. rewrite Hupd.
    by destruct answer as [f|[]]. }
  subst w1.
  destruct answer as [f|[]]; cbn [fst snd backend history record];
    (split; [done|]); (split; [|done]); by rewrite <- app_assoc.
Qed.
End NamespaceFacts.

(** * Further properties: listings *)

Section ListingFacts.
Context `{CatalogConstants} `{Collaborators} {Σ : Type}.
Implicit Types (self : GlueCatalog (Σ := Σ)) (w : World Σ).

Abbreviation TableDef := (TableTypeDef StorageDescriptorTypeDef).

Lemma sent_tables_request self db (token : option string) :
  (token = None ∨ ∃ t, token = Some t ∧ t ≠ "") →
  (if negb (truthy token) then glue_get_tables self db None
   else glue_get_tables self db token) = glue_get_tables self db token.
Proof.
  intros [->|(t & -> & Ht)]; [done|].
  apply truthy_str_ne in Ht. unfold truthy at 1, truthy_option. by rewrite Ht.
Qed.

Lemma sent_databases_request self (token : option string) :
  (token = None ∨ ∃ t, token = Some t ∧ t ≠ "") →
  (if negb (truthy token) then glue_get_databases self None
   else glue_get_databases self token) = glue_get_databases self token.
Proof.
  intros [->|(t & -> & Ht)]; [done|].
  apply truthy_str_ne in Ht. unfold truthy at 1, truthy_option. by rewrite Ht.
Qed.

Lemma truthy_token (next : string) : next ≠ "" → truthy (Some next) = true.
Proof.
  intros Hne. apply truthy_str_ne in Hne. unfold truthy, truthy_option.
  by rewrite Hne.
Qed.

(** ** A failure in the middle of a listing *)

Lemma list_tables_loop_fails self db f n :
  ∀ fuel token σ' table_list w,
    tables_fail_after self db f token (backend w) n σ' →
    (token = None ∨ ∃ t, token = Some t ∧ t ≠ "") →
    (n < fuel)%nat →
    ∃ w', list_tables_loop fuel self db token table_list w
          = (Raise (client_error f), w') ∧ backend w' = σ'.
Proof.
  induction n as [|n IH]; intros fuel token σ' table_list w Hp Htok Hfuel;
    (destruct fuel as [|fuel]; [lia|]);
    cbn [list_tables_loop]; rewrite run_bind, sent_tables_request by done;
    unfold glue_get_tables, request;
    inversion Hp as [? ? ? Hget|? ? page next σ1 ? ? Hget Hnext Hrest]; subst;
    rewrite Hget.
  - eexists; split; reflexivity.
  - cbn. rewrite truthy_token by done. cbn [negb].
    edestruct (IH fuel (Some next) σ' (table_list ++ page)
                 (record w σ1 (Requested (glue.GetTables db token) None)))
      as (w' & Hrun & Hb); [done|right; by eexists|lia|].
    rewrite Hrun. by exists w'.
Qed.

(** X15: A listing of tables that fails on a later page returns nothing of the
    pages it has read: the failure is raised, as [NoSuchNamespaceError] when
    the namespace is not found (on whichever page this happens), and as the
    client raised it otherwise. *)
Theorem list_tables_fails_midway fuel self (namespace : IdentifierArg) db w
    first σ1 f n σ2 :
  identifier_to_database namespace NoSuchNamespaceError = Return db →
  glue.get_tables (client self) db None (backend w) = (inr first, σ1) →
  tables_fail_after self db f None σ1 n σ2 →
  (n < fuel)%nat →
  let r := list_tables fuel self namespace w in
  backend r.2 = σ2 ∧
  r.1 = Raise (if bool_decide (glue.code f = "EntityNotFoundException")
               then Exc NoSuchNamespaceError ("Database does not exist: " +:+ db)
                        (Some (client_error f))
               else client_error f).
Proof.
  intros Hns Hfirst Hp Hfuel r.
  edestruct (list_tables_loop_fails self db f n fuel None σ2 []
               (record w σ1 (Requested (glue.GetTables db None) None)))
    as (w' & Hrun & Hb); [done|by left|done|].
  assert (r = (Raise (if bool_decide (glue.code f = "EntityNotFoundException")
                      then Exc NoSuchNamespaceError
                             ("Database does not exist: " +:+ db)
                             (Some (client_error f))
                      else client_error f), w')) as ->; [|by split].
  subst r. unfold list_tables. rewrite Hns, run_lift_bind. cbn zeta.
  rewrite run_bind, run_try, run_bind.
  unfold glue_get_tables at 1, request. rewrite Hfirst, Hrun.
  cbn [find_handler]. unfold EntityNotFoundException.
  rewrite isinstance_client_error. by case_bool_decide.
Qed.

Lemma list_namespaces_loop_fails self f n :
  ∀ fuel token σ' database_list w,
    databases_fail_after self f token (backend w) n σ' →
    (token = None ∨ ∃ t, token = Some t ∧ t ≠ "") →
    (n < fuel)%nat →
    ∃ w', list_namespaces_loop fuel self token database_list w
          = (Raise (client_error f), w') ∧ backend w' = σ'.
Proof.
  induction n as [|n IH]; intros fuel token σ' database_list w Hp Htok Hfuel;
    (destruct fuel as [|fuel]; [lia|]);
    cbn [list_namespaces_loop]; rewrite run_bind, sent_databases_request by done;
    unfold glue_get_databases, request;
    inversion Hp as [? ? ? Hget|? ? page next σ1 ? ? Hget Hnext Hrest]; subst;
    rewrite Hget.
  - eexists; split; reflexivity.
  - cbn. rewrite truthy_token by done. cbn [negb].
    edestruct (IH fuel (Some next) σ' (database_list ++ page)
                 (record w σ1 (Requested (glue.GetDatabases token) None)))
      as (w' & Hrun & Hb); [done|right; by eexists|lia|].
    rewrite Hrun. by exists w'.
Qed.

(** X16: A listing of namespaces has no handler: a failure on any page is raised
    as the client raised it, whatever its code, and the pages read before
    are not returned. *)
Theorem list_namespaces_fails_midway fuel self (namespace : IdentifierArg) w
    first σ1 f n σ2 :
  truthy namespace = false →
  glue.get_databases (client self) None (backend w) = (inr first, σ1) →
  databases_fail_after self f None σ1 n σ2 →
  (n < fuel)%nat →
  let r := list_namespaces fuel self namespace w in
  backend r.2 = σ2 ∧ r.1 = Raise (client_error f).
Proof.
  intros Hns Hfirst Hp Hfuel r.
  edestruct (list_namespaces_loop_fails self f n fuel None σ2 []
               (record w σ1 (Requested (glue.GetDatabases None) None)))
    as (w' & Hrun & Hb); [done|by left|done|].
  assert (r = (Raise (client_error f), w')) as ->; [|by split].
  subst r. unfold list_namespaces. rewrite Hns. cbn zeta. rewrite run_bind.
  unfold glue_get_databases at 1, request. rewrite Hfirst. rewrite run_bind.
  by rewrite Hrun.
Qed.

(** ** A listing only reads *)

Lemma list_tables_loop_reads self db fuel :
  ∀ token table_list w,
    files (list_tables_loop fuel self db token table_list w).2 = files w ∧
    ∃ asked, history (list_tables_loop fuel self db token table_list w).2
             = history w ++ asked
             ∧ Forall (λ ev, is_get_tables db ev = true) asked
             ∧ (length asked ≤ fuel)%nat.
Proof.
  induction fuel as [|fuel IH]; intros token table_list w.
  - cbn. split; [done|]. exists []. rewrite app_nil_r.
    split; [done|]. split; [constructor|cbn; lia].
  - assert (∃ tok, list_tables_loop (S fuel) self db token table_list w
                   = match glue.get_tables (client self) db tok (backend w) with
                     | (inl f, σ) =>
                         (Raise (client_error f),
                          record w σ (Requested (glue.GetTables db tok) (Some f)))
                     | (inr response, σ) =>
                         let w1 := record w σ (Requested (glue.GetTables db tok) None) in
                         if negb (truthy (glue.r_NextToken response))
                         then (Return (table_list ++ glue.r_TableList response), w1)
                         else list_tables_loop fuel self db (glue.r_NextToken response)
                                (table_list ++ glue.r_TableList response) w1
                     end) as [tok ->].
    { cbn [list_tables_loop]. rewrite run_bind.
      assert (∃ tok, (if negb (truthy token) then glue_get_tables self db None
                      else glue_get_tables self db token)
                     = glue_get_tables self db tok) as [tok ->]
        by (destruct (negb (truthy token)); by eexists).
      exists tok. unfold glue_get_tables, request.
      destruct (glue.get_tables (client self) db tok (backend w)) as [[f|response] σ];
        [done|].
      cbn beta iota zeta. by destruct (negb (truthy (glue.r_NextToken response))). }
    assert (∀ failure, is_get_tables db (Requested (glue.GetTables db tok) failure) = true)
      as Hev by (intros; cbn; by rewrite bool_decide_eq_true_2).
    destruct (glue.get_tables (client self) db tok (backend w)) as [[f|response] σ].
    + split; [done|]. eexists; split; [reflexivity|]. split; [|cbn; lia].
      by repeat constructor.
    + cbn zeta. destruct (negb (truthy (glue.r_NextToken response))).
      * split; [done|]. eexists; split; [reflexivity|]. split; [|cbn; lia].
        by repeat constructor.
      * destruct (IH (glue.r_NextToken response)
                     (table_list ++ glue.r_TableList response)
                     (record w σ (Requested (glue.GetTables db tok) None)))
          as (Hf & asked & Hasked & Hall & Hlen).
        split; [done|].
        exists (Requested (glue.GetTables db tok) None :: asked).
        split; [rewrite Hasked; cbn; by rewrite <- app_assoc|].
        split; [by constructor|cbn; lia].
Qed.

Lemma list_tables_world fuel self (namespace : IdentifierArg) db w :
  identifier_to_database namespace NoSuchNamespaceError = Return db →
  (list_tables fuel self namespace w).2 =
  match glue.get_tables (client self) db None (backend w) with
  | (inl f, σ) => record w σ (Requested (glue.GetTables db None) (Some f))
  | (inr first, σ) =>
      (list_tables_loop fuel self db None []
         (record w σ (Requested (glue.GetTables db None) None))).2
  end.
Proof.
  intros Hns. unfold list_tables. rewrite Hns, run_lift_bind. cbn zeta.
  rewrite run_bind, run_try, run_bind.
  unfold glue_get_tables at 1, request.
  destruct (glue.get_tables (client self) db None (backend w)) as [[f|first] σ1].
  - cbn [find_handler]. by destruct (isinstance _ _).
  - destruct (list_tables_loop fuel self db None [] _) as [[table_list|e|] w'];
      [done| |done].
    cbn [find_handler]. by destruct (isinstance e EntityNotFoundException).
Qed.

(** X17: [list_tables] only reads: whatever the service answers, the calls it
    makes are [GetTables] requests on the database it was asked for, at most
    one more than the number of pages it is allowed to fetch; the content
    store is left as it was. *)
Theorem list_tables_only_reads fuel self (namespace : IdentifierArg) db w :
  identifier_to_database namespace NoSuchNamespaceError = Return db →
  let r := list_tables fuel self namespace w in
  files r.2 = files w ∧
  ∃ asked, history r.2 = history w ++ asked
           ∧ Forall (λ ev, is_get_tables db ev = true) asked
           ∧ (length asked ≤ fuel + 1)%nat.
Proof.
  intros Hns r. subst r. rewrite (list_tables_world fuel self namespace db) by done.
  assert (∀ failure, is_get_tables db (Requested (glue.GetTables db None) failure) = true)
    as Hev by (intros; cbn; by rewrite bool_decide_eq_true_2).
  destruct (glue.get_tables (client self) db None (backend w)) as [[f|first] σ1].
  - split; [done|]. eexists; split; [reflexivity|]. split; [|cbn; lia].
    by repeat constructor.
  - destruct (list_tables_loop_reads self db fuel None []
                (record w σ1 (Requested (glue.GetTables db None) None)))
      as (Hf & asked & Hasked & Hall & Hlen).
    split; [done|]. exists (Requested (glue.GetTables db None) None :: asked).
    split; [rewrite Hasked; cbn; by rewrite <- app_assoc|].
    split; [by constructor|cbn; lia].
Qed.
End ListingFacts.

(** * Further properties: listings without end, and creation *)

Section MoreFacts.
Context `{CatalogConstants} `{Collaborators} {Σ : Type}.
Implicit Types (self : GlueCatalog (Σ := Σ)) (w : World Σ).

Abbreviation TableDef := (TableTypeDef StorageDescriptorTypeDef).
Abbreviation TableInput := (TableInputTypeDef StorageDescriptorTypeDef).

Lemma list_tables_loop_never_ends self db :
  (∀ token σ, ∃ page next σ',
     glue.get_tables (client self) db token σ
     = (inr {| glue.r_TableList := page; glue.r_NextToken := Some next |}, σ')
     ∧ next ≠ "") →
  ∀ fuel token table_list w,
    (list_tables_loop fuel self db token table_list w).1 = Diverged ∧
    length (history (list_tables_loop fuel self db token table_list w).2)
    = (length (history w) + fuel)%nat.
Proof.
  intros Hmore. induction fuel as [|fuel IH]; intros token table_list w.
  - cbn. split; [done|lia].
  - assert (∃ tok page next σ',
              next ≠ "" ∧
              list_tables_loop (S fuel) self db token table_list w
              = list_tables_loop fuel self db (Some next) (table_list ++ page)
                  (record w σ' (Requested (glue.GetTables db tok) None)))
      as (tok & page & next & σ' & Hne & ->).
    { cbn [list_tables_loop]. rewrite run_bind.
      assert (∃ tok, (if negb (truthy token) then glue_get_tables self db None
                      else glue_get_tables self db token)
                     = glue_get_tables self db tok) as [tok ->]
        by (destruct (negb (truthy token)); by eexists).
      destruct (Hmore tok (backend w)) as (page & next & σ' & Hget & Hne).
      exists tok, page, next, σ'. split; [done|].
      unfold glue_get_tables, request. rewrite Hget. cbn beta iota zeta.
      cbn [glue.r_NextToken glue.r_TableList].
      apply truthy_str_ne in Hne. unfold truthy at 1, truthy_option.
      by rewrite Hne. }
    destruct (IH (Some next) (table_list ++ page)
                 (record w σ' (Requested (glue.GetTables db tok) None)))
      as [Hd Hl].
    split; [done|]. rewrite Hl. cbn. rewrite length_app. cbn. lia.
Qed.

(** X18: The loop of [list_tables] has no bound of its own: against a service that
    links every page to a next one, the listing does not return, however
    many pages it is allowed to fetch, and it sends a request for every one
    of them (and the one before the loop). *)
Theorem list_tables_never_ends fuel self (namespace : IdentifierArg) db w :
  identifier_to_database namespace NoSuchNamespaceError = Return db →
  (∀ token σ, ∃ page next σ',
     glue.get_tables (client self) db token σ
     = (inr {| glue.r_TableList := page; glue.r_NextToken := Some next |}, σ')
     ∧ next ≠ "") →
  let r := list_tables fuel self namespace w in
  r.1 = Diverged ∧
  length (history r.2) = (length (history w) + fuel + 1)%nat.
Proof.
  intros Hns Hmore r.
  destruct (Hmore None (backend w)) as (page & next & σ1 & Hget & Hne).
  destruct (list_tables_loop_never_ends self db Hmore fuel None []
              (record w σ1 (Requested (glue.GetTables db None) None)))
    as [Hd Hl].
  assert (r = (Diverged,
               (list_tables_loop fuel self db None []
                  (record w σ1 (Requested (glue.GetTables db None) None))).2)) as ->.
  { subst r. unfold list_tables. rewrite Hns, run_lift_bind. cbn zeta.
    rewrite run_bind, run_try, run_bind.
    unfold glue_get_tables at 1, request. rewrite Hget.
    destruct (list_tables_loop fuel self db None [] _) as [o w'].
    cbn in Hd. by subst o. }
  split; [done|]. cbn [snd]. rewrite Hl. cbn. rewrite length_app. cbn. lia.
Qed.

(** ** Creation, then load *)

(** X19: Load after write: when the metastore registers the entity and then
    answers for the table with the parameters that were submitted,
    [create_table] returns the table whose metadata location is the file it
    has just written and whose metadata is the object it built from its
    arguments. *)
Theorem create_table_returns_what_it_wrote self (identifier : IdentifierArg)
    (schema : Schema) (location : option string) (partition_spec : PartitionSpec)
    (sort_order : SortOrder) (props : Properties) w
    db tbl loc w1 mloc w2 σ3 registered σ4 :
  TABLE_TYPE ≠ METADATA_LOCATION →
  lower ICEBERG = ICEBERG →
  identifier_to_database_and_table identifier ValueError = Return (db, tbl) →
  db ≠ "" →
  _resolve_table_location self location db tbl w = (Return loc, w1) →
  _get_metadata_location loc w1 = (Return mloc, w2) →
  let md := new_table_metadata loc schema partition_spec sort_order props in
  let table_input : TableInput := _construct_create_table_input tbl mloc props in
  glue.create_table (client self) db table_input (backend w2) = (inr tt, σ3) →
  glue.get_table (client self) db tbl σ3 = (inr {| glue.r_Table := registered |}, σ4) →
  Name registered = tbl →
  DatabaseName registered = Some db →
  Parameters registered = in_Parameters table_input →
  (create_table self identifier schema location partition_spec sort_order props w).1
  = Return {| identifier := [name self; db; tbl];
              metadata := md;
              metadata_location := mloc;
              io := _load_file_io self (metadata_properties md) mloc;
              catalog := self |}.
Proof.
  intros Hkeys Hlow Hid Hdb Hloc Hmloc md table_input Hcreate Hget Hname Hdbn Hp.
  set (w3 := {| backend := backend w2; files := <[mloc := md]> (files w2);
                entropy := entropy w2; history := history w2 ++ [Written mloc] |}).
  assert (create_table self identifier schema location partition_spec sort_order props w
          = load_table self identifier
              (record w3 σ3 (Requested (glue.CreateTable db table_input) None))) as ->.
  { unfold create_table.
    rewrite Hid, run_lift_bind. cbn beta iota.
    rewrite run_bind, Hloc, run_bind, Hmloc. cbn zeta.
    rewrite run_bind. unfold _write_metadata at 1. cbn beta iota.
    rewrite run_lift_bind. cbn beta iota.
    rewrite run_bind, _create_glue_table_run. cbn [backend].
    fold md. fold table_input. by rewrite Hcreate. }
  rewrite (load_table_outcome_aux self identifier db tbl)
    by (by eapply resolve_table_without_catalog).
  cbn [backend record]. rewrite Hget. cbn [glue.r_Table].
  match goal with |- (_convert_glue_to_iceberg self registered ?w').1 = _ =>
    destruct (convert_run self registered w' db (_construct_parameters mloc))
      as (o & Hrun & Ho) end; try done.
  { unfold _construct_parameters. apply insert_non_empty. }
  rewrite Hrun. cbn [fst].
  unfold _construct_parameters in Ho.
  rewrite lookup_insert_ne, lookup_insert_eq in Ho by done.
  rewrite decide_True in Ho by (by rewrite lower_upper).
  rewrite lookup_insert_eq in Ho. cbn [files record w3] in Ho.
  subst w3. cbn [files] in Ho. rewrite lookup_insert_eq in Ho.
  by rewrite Ho, Hname.
Qed.
End MoreFacts.

(** * Scenarios *)

Section Scenarios.
#[local] Existing Instance pyiceberg_constants.
#[local] Existing Instance plain_collaborators.

(** C2, as worded, fails on an entity whose type marker is absent: the
    error is [NoSuchPropertyException], not [NoSuchIcebergTableError]. *)
Lemma fromTableEntity_as_stated_fails :
  ¬ fromTableEntity_as_stated sample_catalog entity_without_type_marker
      (Stub.world [] sample_store).
Proof.
  intros Hc. destruct (Hc _ eq_refl) as (_ & Hmarker & _).
  destruct Hmarker as (e & He & Hcls).
  - intros (t & Ht & _). vm_compute in Ht. discriminate.
  - vm_compute in He. injection He as <-. discriminate.
Qed.

Lemma convert_validation_witness :
  let r := _convert_glue_to_iceberg sample_catalog iceberg_entity
             (Stub.world [] sample_store) in
  ∃ table, r.1 = Return table ∧ metadata_location table = sample_location.
Proof.
  destruct (convert_validation sample_catalog iceberg_entity
              (Stub.world [] sample_store) "db"
              {[ "table_type" := "ICEBERG"; "metadata_location" := sample_location ]})
    as (_ & _ & _ & _ & Hok); [reflexivity|done|reflexivity|vm_compute; done|].
  destruct (Hok "ICEBERG" sample_location ("s3://warehouse/db/t1", ∅))
    as (table & Ht & Hl & _); [reflexivity..|].
  exists table. by split.
Defined.

(** C1: the source is found and valid, the destination is created, the
    deletion of the source is denied and so is the compensating deletion
    of the destination. [rename_table] raises the client's error of the
    second deletion as it is: no [ValueError], no word of the two tables
    that now coexist, no request to clean up. *)
Theorem rename_double_failure_escapes :
  let r := rename_table sample_catalog (IdStr "db.t1") (IdStr "db.t2")
             (Stub.world deletions_denied sample_store) in
  r.1 = Raise (client_error denied) ∧
  history r.2 =
    [ Requested (glue.GetTable "db" "t1") None;
      Requested (glue.CreateTable "db" renamed_input) None;
      Requested (glue.DeleteTable "db" "t1") (Some denied);
      Requested (glue.DeleteTable "db" "t2") (Some denied) ].
Proof. vm_compute. split; reflexivity. Qed.

(** The entity that a rename of [db.t1] submits, and a listing under a
    namespace. *)
Example rename_input_of_iceberg_entity :
  _construct_rename_table_input "t2" iceberg_entity = Return renamed_input.
Proof. reflexivity. Qed.

Example list_namespaces_under_db :
  list_namespaces 0 sample_catalog (IdStr "db") (Stub.world [] ∅)
  = (Return [], Stub.world [] ∅).
Proof. reflexivity. Qed.

(** The two failures that [rename_table] does report. *)
Example rename_rolled_back :
  (rename_table sample_catalog (IdStr "db.t1") (IdStr "db.t2")
     (Stub.world first_deletion_denied sample_store)).1
  = Raise (Exc ValueError
             "Failed to drop old table db.t1. Rolled back table creation for db.t2."
             (Some (client_error denied))).
Proof. vm_compute. reflexivity. Qed.

Example rename_asks_for_clean_up :
  (rename_table sample_catalog (IdStr "db.t1") (IdStr "db.t2")
     (Stub.world destination_vanished sample_store)).1
  = Raise (Exc ValueError
             ("Failed to drop old table db.t1. "
              +:+ "Failed to roll back table creation for db.t2. "
              +:+ "Please clean up manually")
             (Some (client_error denied))).
Proof. vm_compute. reflexivity. Qed.

Lemma namespace_properties_round_trip_witness :
  LOCATION = "location" ∧
  properties_of_database
    (_construct_database_input "db"
       {[ "Description" := "sales"; "location" := "s3://warehouse/db";
          "owner" := "alice" ]})
  = {[ "Description" := "sales"; "location" := "s3://warehouse/db";
       "owner" := "alice" ]}.
Proof.
  split; [reflexivity|].
  apply namespace_properties_round_trip. reflexivity.
Defined.

Lemma update_with_overlap_updates_nothing_witness :
  let w := Stub.world [Stub.OneDatabase (database_named "db")] ∅ in
  let r := update_namespace_properties sample_catalog (IdStr "db")
             (Some {[ "owner" ]}) {[ "owner" := "bob" ]} w in
  "owner" ∈ ({[ "owner" ]} : gset string) ∧
  raised r.1 ValueError ∧
  history r.2 = [Requested (glue.GetDatabase "db") None].
Proof.
  intros w r.
  assert ("owner" ∈ ({[ "owner" ]} : gset string)) as Hrem
    by (apply elem_of_singleton; reflexivity).
  assert (is_Some (({[ "owner" := "bob" ]} : Properties) !! "owner")) as Hupd
    by (exists "bob"; reflexivity).
  destruct (update_with_overlap_updates_nothing sample_catalog (IdStr "db")
              {[ "owner" ]} {[ "owner" := "bob" ]} "owner" w Hrem Hupd)
    as (Hw & _ & Hr).
  split; [exact Hrem|]. split; [exact Hr|].
  change (history r.2) with (history
    (update_namespace_properties sample_catalog (IdStr "db")
       (Some {[ "owner" ]}) {[ "owner" := "bob" ]} w).2).
  rewrite Hw. reflexivity.
Defined.

Lemma listing_drains_all_pages_witness :
  (∃ w', list_tables 3 sample_catalog (IdStr "db") (Stub.world three_pages ∅)
         = (Return [["db"; "t1"]; ["db"; "t2"]; ["db"; "t3"]], w')) ∧
  (∃ w', list_namespaces 2 sample_catalog (IdTuple [])
           (Stub.world two_pages_of_databases ∅)
         = (Return [["a"]; ["b"]; ["c"]], w')).
Proof.
  split.
  - destruct (proj1 (listing_drains_all_pages 3 sample_catalog)
                 (IdStr "db") "db" (Stub.world three_pages ∅)
                 first_tables_answer (tail three_pages)
                 [[table_named "t1"; table_named "t2"]; [table_named "t3"]; []] [])
      as (w' & Hrun & _).
    + reflexivity.
    + reflexivity.
    + eapply (@tables_next_page plain_collaborators); [reflexivity|done|].
      eapply (@tables_next_page plain_collaborators); [reflexivity|done|].
      eapply (@tables_last_page plain_collaborators); reflexivity.
    + cbn; lia.
    + exists w'. exact Hrun.
  - destruct (proj2 (listing_drains_all_pages 2 sample_catalog)
                 (IdTuple []) (Stub.world two_pages_of_databases ∅)
                 first_databases_answer (tail two_pages_of_databases)
                 [[database_named "a"; database_named "b"]; [database_named "c"]] [])
      as (w' & Hrun & _).
    + reflexivity.
    + reflexivity.
    + eapply (@databases_next_page plain_collaborators); [reflexivity|done|].
      eapply (@databases_last_page plain_collaborators); reflexivity.
    + cbn; lia.
    + exists w'. exact Hrun.
Defined.

Lemma drop_namespace_protocol_witness :
  let w := Stub.world [Stub.Tables [] None; Stub.Tables [table_named "t1"] None] ∅ in
  identifier_to_database (IdStr "db") NoSuchNamespaceError = Return "db" ∧
  raised (drop_namespace 1 sample_catalog (IdStr "db") w).1 NamespaceNotEmptyError ∧
  history (drop_namespace 1 sample_catalog (IdStr "db") w).2
  = [Requested (glue.GetTables "db" None) None;
     Requested (glue.GetTables "db" None) None].
Proof.
  intros w. split; [reflexivity|].
  destruct (drop_namespace_protocol 1 sample_catalog (IdStr "db") "db" w eq_refl)
    as (_ & _ & Hm).
  change (list_tables 1 sample_catalog (IdStr "db") w).1
    with (Return (A := list Identifier) [["db"; "t1"]]) in Hm.
  destruct Hm as [Hr Hw]. split; [exact Hr|]. rewrite Hw. reflexivity.
Defined.

Lemma rename_early_failure_deletes_nothing_witness :
  let w := Stub.world [Stub.Fails "EntityNotFoundException" "Table t1 not found."]
                      sample_store in
  let r := rename_table sample_catalog (IdStr "db.t1") (IdStr "db.t2") w in
  fails_before_delete sample_catalog "db" "t1" "db" "t2" w NoSuchTableError ∧
  raised r.1 NoSuchTableError ∧
  ∃ new, history r.2 = history w ++ new ∧
         Forall (λ ev, is_delete_table ev = false) new.
Proof.
  intros w r.
  assert (fails_before_delete sample_catalog "db" "t1" "db" "t2" w NoSuchTableError)
    as Hfail by (eapply (@source_absent _ plain_collaborators); reflexivity).
  split; [exact Hfail|].
  apply (rename_early_failure_deletes_nothing sample_catalog
           (IdStr "db.t1") (IdStr "db.t2") "db" "t1" "db" "t2" w NoSuchTableError);
    [reflexivity|reflexivity|exact Hfail].
Defined.

Lemma create_table_writes_before_registering_witness :
  let w := Stub.world [Stub.Fails "AlreadyExistsException" "Table already exists."] ∅ in
  let r := create_table sample_catalog (IdStr "db.t1") [("id", "long")]
             (Some "s3://warehouse/db/t1") tt tt ∅ w in
  identifier_to_database_and_table (IdStr "db.t1") ValueError = Return ("db", "t1") ∧
  raised r.1 TableAlreadyExistsError ∧
  files r.2 !! created_location = Some ("s3://warehouse/db/t1", ∅).
Proof.
  intros w r. split; [reflexivity|].
  destruct (create_table_writes_before_registering sample_catalog (IdStr "db.t1")
              [("id", "long")] (Some "s3://warehouse/db/t1") tt tt ∅ w
              "db" "t1" "s3://warehouse/db/t1" w created_location
              {| backend := backend w; files := files w; entropy := [];
                 history := history w |}
              (inl {| glue.code := "AlreadyExistsException";
                      glue.message := "Table already exists." |}) []
              eq_refl eq_refl eq_refl eq_refl)
    as (_ & Hexists & _ & _ & Hfile).
  split; [exact (Hexists eq_refl)|exact Hfile].
Defined.
End Scenarios.

(** * Further scenarios *)

Section MoreScenarios.
#[local] Existing Instance pyiceberg_constants.
#[local] Existing Instance plain_collaborators.

Lemma created_entity_is_valid_witness :
  TABLE_TYPE ≠ METADATA_LOCATION ∧ lower ICEBERG = ICEBERG ∧
  _convert_glue_to_iceberg sample_catalog iceberg_entity (Stub.world [] sample_store)
  = (Return {| identifier := ["glue"; "db"; "t1"];
               metadata := ("s3://warehouse/db/t1", ∅);
               metadata_location := sample_location;
               io := _load_file_io sample_catalog ∅ sample_location;
               catalog := sample_catalog |},
     Stub.world [] sample_store).
Proof.
  split; [done|]. split; [reflexivity|].
  apply (created_entity_is_valid sample_catalog iceberg_entity
           (Stub.world [] sample_store) "t1" sample_location "db" ∅
           ("s3://warehouse/db/t1", ∅));
    [done|reflexivity|reflexivity|reflexivity|done|reflexivity].
Defined.

Lemma load_table_outcome_witness :
  let w := Stub.world [Stub.Fails "EntityNotFoundException" "Table t1 not found."] ∅ in
  identifier_to_database_and_table
    (IdTuple (identifier_to_tuple_without_catalog sample_catalog (IdStr "glue.db.t1")))
    NoSuchTableError = Return ("db", "t1") ∧
  (load_table sample_catalog (IdStr "glue.db.t1") w).1
  = Raise (Exc NoSuchTableError "Table does not exist: db.t1"
             (Some (Exc (ClientError "EntityNotFoundException")
                        "Table t1 not found." None))).
Proof.
  intros w. split; [reflexivity|].
  pose proof (load_table_outcome sample_catalog (IdStr "glue.db.t1") "db" "t1" w
                eq_refl) as Hout.
  cbn in Hout. by rewrite Hout.
Defined.

Lemma rename_success_choreography_witness :
  let w := Stub.world [Stub.OneTable iceberg_entity; Stub.Done; Stub.Done] sample_store in
  TableType iceberg_entity = Some "EXTERNAL_TABLE" ∧
  rename_table sample_catalog (IdStr "db.t1") (IdStr "db.t2") w
  = load_table sample_catalog (IdStr "db.t2")
      {| backend := []; files := sample_store; entropy := entropy w;
         history := [ Requested (glue.GetTable "db" "t1") None;
                      Requested (glue.CreateTable "db" renamed_input) None;
                      Requested (glue.DeleteTable "db" "t1") None ] |}.
Proof.
  intros w. split; [reflexivity|].
  eapply (rename_success_choreography sample_catalog (IdStr "db.t1") (IdStr "db.t2")
            "db" "t1" "db" "t2" w found_iceberg_entity
            [Stub.Done; Stub.Done] _ "EXTERNAL_TABLE" [Stub.Done] []);
    [reflexivity|reflexivity|reflexivity|reflexivity|reflexivity|done
    |reflexivity|reflexivity].
Defined.

Lemma rename_keeps_metadata_location_witness :
  let w := Stub.world renamed_once sample_store in
  files w !! sample_location = Some ("s3://warehouse/db/t1", ∅) ∧
  (rename_table sample_catalog (IdStr "db.t1") (IdStr "db.t2") w).1
  = Return {| identifier := ["glue"; "db"; "t2"];
              metadata := ("s3://warehouse/db/t1", ∅);
              metadata_location := sample_location;
              io := _load_file_io sample_catalog ∅ sample_location;
              catalog := sample_catalog |}.
Proof.
  intros w. split; [reflexivity|].
  apply (rename_keeps_metadata_location sample_catalog (IdStr "db.t1") (IdStr "db.t2")
           "db" "t1" "db" "t2" w found_iceberg_entity
           (tail renamed_once) "db"
           {[ "table_type" := "ICEBERG"; "metadata_location" := sample_location ]}
           "ICEBERG" sample_location ("s3://warehouse/db/t1", ∅) "EXTERNAL_TABLE"
           [Stub.Done; Stub.OneTable renamed_entity] [Stub.OneTable renamed_entity]
           renamed_entity []);
    try reflexivity; done.
Defined.

Lemma rename_attempts_rollback_witness :
  let w := Stub.world first_deletion_denied sample_store in
  let r := rename_table sample_catalog (IdStr "db.t1") (IdStr "db.t2") w in
  glue.delete_table (client sample_catalog) "db" "t1"
    [Stub.Fails (glue.code denied) (glue.message denied); Stub.Done]
  = (inl denied, [Stub.Done]) ∧
  history r.2 =
    [ Requested (glue.GetTable "db" "t1") None;
      Requested (glue.CreateTable "db" renamed_input) None;
      Requested (glue.DeleteTable "db" "t1") (Some denied);
      Requested (glue.DeleteTable "db" "t2") None ] ∧
  r.1 = Raise (Exc ValueError (rolled_back_message "db" "t1" "db" "t2")
                   (Some (table_failure "db" "t1" denied))).
Proof.
  intros w r. split; [reflexivity|].
  edestruct (rename_attempts_rollback sample_catalog (IdStr "db.t1") (IdStr "db.t2")
               "db" "t1" "db" "t2" w found_iceberg_entity
               (tail first_deletion_denied) loaded_iceberg_table renamed_input
               [Stub.Fails (glue.code denied) (glue.message denied); Stub.Done]
               denied [Stub.Done] (inr tt) [])
    as (_ & _ & Hhistory & Hout);
    [reflexivity|reflexivity|reflexivity|reflexivity|reflexivity|reflexivity
    |reflexivity|reflexivity|].
  split; [exact Hhistory|exact Hout].
Defined.

Lemma rename_passes_other_validation_errors_witness :
  let w := Stub.world [Stub.OneTable iceberg_entity] ∅ in
  (_convert_glue_to_iceberg sample_catalog iceberg_entity
     (record w [] (Requested (glue.GetTable "db" "t1") None))).1
  = Raise (Exc FileNotFoundError sample_location None) ∧
  rename_table sample_catalog (IdStr "db.t1") (IdStr "db.t2") w
  = (Raise (Exc FileNotFoundError sample_location None),
     record w [] (Requested (glue.GetTable "db" "t1") None)).
Proof.
  intros w. split; [reflexivity|].
  apply (rename_passes_other_validation_errors sample_catalog
           (IdStr "db.t1") (IdStr "db.t2") "db" "t1" "db" "t2" w
           found_iceberg_entity []);
    [reflexivity|reflexivity|reflexivity|reflexivity|done|done].
Defined.

Lemma database_input_partitions_witness :
  LOCATION ≠ "Description" ∧
  db_Description (_construct_database_input "db" sales_properties) = Some "sales" ∧
  db_LocationUri (_construct_database_input "db" sales_properties)
  = Some "s3://warehouse/db" ∧
  ∃ parameters,
    db_Parameters (_construct_database_input "db" sales_properties) = Some parameters ∧
    parameters !! "Description" = None ∧ parameters !! "location" = None.
Proof.
  split; [done|].
  destruct (database_input_partitions "db" sales_properties)
    as (_ & Hd & Hl & parameters & Hp & Hpd & Hpl & _); [done|].
  split; [exact Hd|]. split; [exact Hl|].
  exists parameters. split; [exact Hp|]. split; [exact Hpd|exact Hpl].
Defined.

Lemma create_namespace_outcome_witness :
  let w := Stub.world [Stub.Fails "AlreadyExistsException" "Database db exists."] ∅ in
  identifier_to_database (IdStr "db") ValueError = Return "db" ∧
  (create_namespace sample_catalog (IdStr "db") sales_properties w).1
  = Raise (Exc NamespaceAlreadyExistsError "Database db already exists"
             (Some (Exc (ClientError "AlreadyExistsException")
                        "Database db exists." None))).
Proof.
  intros w. split; [reflexivity|].
  pose proof (create_namespace_outcome sample_catalog (IdStr "db") sales_properties
                "db" w eq_refl) as Hout.
  cbn in Hout. by rewrite Hout.
Defined.

Lemma load_namespace_properties_outcome_witness :
  let w := Stub.world [Stub.Fails "InvalidInputException" "Invalid name."] ∅ in
  identifier_to_database (IdStr "db") NoSuchNamespaceError = Return "db" ∧
  ∃ msg, (load_namespace_properties sample_catalog (IdStr "db") w).1
         = Raise (Exc NoSuchNamespaceError msg
                    (Some (Exc (ClientError "InvalidInputException")
                               "Invalid name." None))).
Proof.
  intros w. split; [reflexivity|].
  pose proof (load_namespace_properties_outcome sample_catalog (IdStr "db") "db" w
                eq_refl) as Hout.
  cbn in Hout. destruct Hout as (_ & Hmapped & _).
  apply Hmapped. by right.
Defined.

Lemma create_then_load_namespace_witness :
  let w := Stub.world
             [Stub.Done; Stub.OneDatabase (_construct_database_input "db" sales_properties)]
             ∅ in
  LOCATION = "location" ∧
  ((create_namespace sample_catalog (IdStr "db") sales_properties ≫=
    λ _, load_namespace_properties sample_catalog (IdStr "db")) w).1
  = Return sales_properties.
Proof.
  intros w. split; [reflexivity|].
  edestruct (create_then_load_namespace sample_catalog (IdStr "db") sales_properties
               "db" w
               [Stub.OneDatabase (_construct_database_input "db" sales_properties)] [])
    as (Hout & _); [reflexivity|reflexivity|reflexivity|reflexivity|].
  exact Hout.
Defined.

Lemma update_pushes_reconciled_properties_witness :
  let w := Stub.world [Stub.OneDatabase sales_database; Stub.Done] ∅ in
  let r := update_namespace_properties sample_catalog (IdStr "db")
             (Some {[ "owner" ]}) {[ "team" := "data" ]} w in
  LOCATION = "location" ∧
  backend r.2 = [] ∧
  history r.2 =
    [ Requested (glue.GetDatabase "db") None;
      Requested (glue.UpdateDatabase "db"
                   (_construct_database_input "db"
                      {[ "Description" := "sales"; "location" := "s3://warehouse/db";
                         "team" := "data" ]})) None ].
Proof.
  intros w r. split; [reflexivity|].
  edestruct (update_pushes_reconciled_properties sample_catalog (IdStr "db")
               (Some {[ "owner" ]}) {[ "team" := "data" ]} "db" w
               found_sales_database [Stub.Done]
               {| removed := ["owner"]; updated := ["team"]; missing := [] |}
               {[ "Description" := "sales"; "location" := "s3://warehouse/db";
                    "team" := "data" ]} (inr tt) [])
    as (_ & Hb & Hh & _);
    [reflexivity|reflexivity|reflexivity|vm_compute; reflexivity|reflexivity|].
  split; [exact Hb|exact Hh].
Defined.

Lemma list_tables_fails_midway_witness :
  let w := Stub.world vanishing_namespace ∅ in
  identifier_to_database (IdStr "db") NoSuchNamespaceError = Return "db" ∧
  (list_tables 3 sample_catalog (IdStr "db") w).1
  = Raise (Exc NoSuchNamespaceError "Database does not exist: db"
             (Some (Exc (ClientError "EntityNotFoundException")
                        "Database db not found." None))).
Proof.
  intros w. split; [reflexivity|].
  edestruct (list_tables_fails_midway 3 sample_catalog (IdStr "db") "db" w
               first_tables_answer (tail vanishing_namespace)
               {| glue.code := "EntityNotFoundException";
                  glue.message := "Database db not found." |} 2 [])
    as (_ & Hout); [reflexivity|reflexivity| |lia|exact Hout].
  eapply (@tables_fail_later plain_collaborators); [reflexivity|done|].
  eapply (@tables_fail_later plain_collaborators); [reflexivity|done|].
  eapply (@tables_fail_at_once plain_collaborators); reflexivity.
Defined.

Lemma list_namespaces_fails_midway_witness :
  let w := Stub.world throttled ∅ in
  truthy (IdTuple []) = false ∧
  (list_namespaces 2 sample_catalog (IdTuple []) w).1
  = Raise (Exc (ClientError "ThrottlingException") "Rate exceeded." None).
Proof.
  intros w. split; [reflexivity|].
  edestruct (list_namespaces_fails_midway 2 sample_catalog (IdTuple []) w
               first_databases_answer (tail throttled)
               {| glue.code := "ThrottlingException";
                  glue.message := "Rate exceeded." |} 1 [])
    as (_ & Hout); [reflexivity|reflexivity| |lia|exact Hout].
  eapply (@databases_fail_later plain_collaborators); [reflexivity|done|].
  eapply (@databases_fail_at_once plain_collaborators); reflexivity.
Defined.

Lemma list_tables_only_reads_witness :
  let w := Stub.world three_pages sample_store in
  let r := list_tables 3 sample_catalog (IdStr "db") w in
  identifier_to_database (IdStr "db") NoSuchNamespaceError = Return "db" ∧
  files r.2 = sample_store ∧
  ∃ asked, history r.2 = history w ++ asked
           ∧ Forall (λ ev, is_get_tables "db" ev = true) asked
           ∧ (length asked ≤ 3 + 1)%nat.
Proof.
  intros w r. split; [reflexivity|].
  exact (list_tables_only_reads 3 sample_catalog (IdStr "db") "db" w eq_refl).
Defined.

Lemma list_tables_never_ends_witness :
  identifier_to_database (IdStr "db") NoSuchNamespaceError = Return "db" ∧
  (list_tables 7 endless_catalog (IdStr "db") endless_world).1 = Diverged ∧
  length (history (list_tables 7 endless_catalog (IdStr "db") endless_world).2) = 8.
Proof.
  split; [reflexivity|].
  apply (list_tables_never_ends 7 endless_catalog (IdStr "db") "db" endless_world);
    [reflexivity|].
  intros token σ. exists [table_named "t1"], "more", σ. split; [reflexivity|done].
Defined.

Lemma create_table_returns_what_it_wrote_witness :
  let w := Stub.world created_once ∅ in
  identifier_to_database_and_table (IdStr "db.t1") ValueError = Return ("db", "t1") ∧
  (create_table sample_catalog (IdStr "db.t1") [("id", "long")]
     (Some "s3://warehouse/db/t1") tt tt ∅ w).1
  = Return {| identifier := ["glue"; "db"; "t1"];
              metadata := ("s3://warehouse/db/t1", ∅);
              metadata_location := created_location;
              io := _load_file_io sample_catalog ∅ created_location;
              catalog := sample_catalog |}.
Proof.
  intros w. split; [reflexivity|].
  apply (create_table_returns_what_it_wrote sample_catalog (IdStr "db.t1")
           [("id", "long")] (Some "s3://warehouse/db/t1") tt tt ∅ w
           "db" "t1" "s3://warehouse/db/t1" w created_location
           {| backend := backend w; files := files w; entropy := [];
              history := history w |}
           [Stub.OneTable created_entity] created_entity []);
    try reflexivity; done.
Defined.
End MoreScenarios.
